(** * Wikipedia data ingestion: a shallow embedding of [data_extraction.py]

    The module [src/backend/wikipedia-data-ingestion/src/data_extraction.py]
    holds one class, [WikipediaDataExtractor], with a constructor and three
    methods.  Every method is embedded below as a function in a state and
    exception monad over an explicit [World]: the process environment, the
    clock, the log and the blob store.  The collaborators that live outside
    the repository (the dataset hub, the storage SDK, two Python builtins
    whose result depends on the Unicode database) are interfaces: the
    theorems hold for all their behaviours, and the closed examples run on
    stand-ins, as the tests of the repository run on mocks. *)

From Stdlib Require Import ZArith List String Ascii Lia.
From Stdlib Require DecimalFacts DecimalPos.
From stdpp Require Import base option list gmap.
Import ListNotations.

Local Open Scope Z_scope.

(** ** Python strings

    A [str] is a sequence of Unicode code points.  Literals of the source
    are written [lit "..."]: each character of an ASCII literal is its own
    code point. *)

Abbreviation pystr := (list N).

Definition lit (s : string) : pystr :=
  map N_of_ascii (list_ascii_of_string s).

(** [str.replace(old, new)]: every non-overlapping occurrence of [old],
    scanning from the left.  [skip] counts the characters of a match that
    are still to be dropped.  With an empty [old], Python inserts [new]
    before every character and at the end. *)

Fixpoint starts_with (p s : pystr) : bool :=
  match p, s with
  | [], _ => true
  | _ :: _, [] => false
  | a :: p', b :: s' => N.eqb a b && starts_with p' s'
  end.

Fixpoint replace_from (old new : pystr) (skip : nat) (s : pystr) : pystr :=
  match s with
  | [] => []
  | c :: s' =>
      match skip with
      | S k => replace_from old new k s'
      | O =>
          if starts_with old s
          then new ++ replace_from old new (length old - 1) s'
          else c :: replace_from old new O s'
      end
  end.

Definition str_replace (old new s : pystr) : pystr :=
  match old with
  | [] => new ++ flat_map (fun c => c :: new) s
  | _ :: _ => replace_from old new O s
  end.

(** Decimal text of an integer, as [str(n)] and the [{n}] of an f-string
    print it: a minus sign for negatives, no leading zero. *)

Fixpoint digits_of_uint (d : Decimal.uint) : pystr :=
  match d with
  | Decimal.Nil => []
  | Decimal.D0 d => 48%N :: digits_of_uint d
  | Decimal.D1 d => 49%N :: digits_of_uint d
  | Decimal.D2 d => 50%N :: digits_of_uint d
  | Decimal.D3 d => 51%N :: digits_of_uint d
  | Decimal.D4 d => 52%N :: digits_of_uint d
  | Decimal.D5 d => 53%N :: digits_of_uint d
  | Decimal.D6 d => 54%N :: digits_of_uint d
  | Decimal.D7 d => 55%N :: digits_of_uint d
  | Decimal.D8 d => 56%N :: digits_of_uint d
  | Decimal.D9 d => 57%N :: digits_of_uint d
  end.

Definition str_of_int (z : Z) : pystr :=
  match Z.to_int z with
  | Decimal.Pos d => digits_of_uint d
  | Decimal.Neg d => 45%N :: digits_of_uint d
  end.

(** ** Python values

    The values an article can hold.  [PObj cls] stands for an instance of
    any other class [cls] (a set, say): it has none of the methods used by
    the module and [json] cannot serialise it.  Floats are not represented.
    A [dict] keeps its insertion order, which [json.dumps] follows; its keys
    are strings. *)

#[local] Unset Elimination Schemes.

Inductive pyval : Type :=
  | PNone
  | PBool (b : bool)
  | PInt (z : Z)
  | PStr (s : pystr)
  | PList (items : list pyval)
  | PTuple (items : list pyval)
  | PDict (entries : list (pystr * pyval))
  | PObj (cls : pystr).

#[local] Set Elimination Schemes.

Definition type_name (v : pyval) : pystr :=
  match v with
  | PNone => lit "NoneType"
  | PBool _ => lit "bool"
  | PInt _ => lit "int"
  | PStr _ => lit "str"
  | PList _ => lit "list"
  | PTuple _ => lit "tuple"
  | PDict _ => lit "dict"
  | PObj cls => cls
  end.

(** ** Exceptions and results

    Every exception of the model is an instance of a subclass of
    [Exception]: its class name and its [str(e)] text. *)

Record exn : Type := Exn { exn_class : pystr; exn_text : pystr }.

Definition AttributeError (v : pyval) (attr : string) : exn :=
  Exn (lit "AttributeError")
      (lit "'" ++ type_name v ++ lit "' object has no attribute '"
           ++ lit attr ++ lit "'").

Definition TypeError (text : pystr) : exn := Exn (lit "TypeError") text.

Definition IndexError (text : pystr) : exn := Exn (lit "IndexError") text.

Inductive result (A : Type) : Type :=
  | Ok (a : A)
  | Raise (e : exn).

Arguments Ok {A} a.
Arguments Raise {A} e.

Definition rbind {A B} (r : result A) (k : A -> result B) : result B :=
  match r with
  | Ok a => k a
  | Raise e => Raise e
  end.

(** ** The [json] module

    [json.dumps(obj, ensure_ascii=False)] with the default separators, and
    [json.loads].  Code points used below: 34 is the double quote, 92 the
    backslash, 44 the comma, 58 the colon, 91 and 93 the square brackets,
    123 and 125 the braces. *)

Definition hex_digit (n : N) : N :=
  (if n <? 10 then 48 + n else 87 + n)%N.

(** [ESCAPE_DCT]: the backslash, the quote and the control characters are
    escaped, everything else (all of non-ASCII too) is copied. *)
Definition escape_char (c : N) : pystr :=
  (if c =? 92 then [92; 92]
   else if c =? 34 then [92; 34]
   else if c =? 8 then [92; 98]
   else if c =? 12 then [92; 102]
   else if c =? 10 then [92; 110]
   else if c =? 13 then [92; 114]
   else if c =? 9 then [92; 116]
   else if c <? 32 then [92; 117; 48; 48; hex_digit (c / 16); hex_digit (c mod 16)]
   else [c])%N.

Definition encode_basestring (s : pystr) : pystr :=
  34%N :: flat_map escape_char s ++ [34%N].

Fixpoint join (sep : pystr) (chunks : list pystr) : pystr :=
  match chunks with
  | [] => []
  | [x] => x
  | x :: rest => x ++ sep ++ join sep rest
  end.

Definition not_serializable (v : pyval) : exn :=
  TypeError (lit "Object of type " ++ type_name v ++ lit " is not JSON serializable").

Section Traverse.
Context {A B : Type} (f : A -> result B).

Fixpoint traverse (l : list A) : result (list B) :=
  match l with
  | [] => Ok []
  | x :: l' =>
      match f x with
      | Ok y =>
          match traverse l' with
          | Ok ys => Ok (y :: ys)
          | Raise e => Raise e
          end
      | Raise e => Raise e
      end
  end.
End Traverse.

Fixpoint json_encode (v : pyval) : result pystr :=
  match v with
  | PNone => Ok (lit "null")
  | PBool true => Ok (lit "true")
  | PBool false => Ok (lit "false")
  | PInt z => Ok (str_of_int z)
  | PStr s => Ok (encode_basestring s)
  | PList items | PTuple items =>
      match traverse json_encode items with
      | Ok chunks => Ok (lit "[" ++ join (lit ", ") chunks ++ lit "]")
      | Raise e => Raise e
      end
  | PDict entries =>
      match traverse (fun kv => match json_encode (snd kv) with
                                | Ok txt => Ok (encode_basestring (fst kv) ++ lit ": " ++ txt)
                                | Raise e => Raise e
                                end) entries with
      | Ok chunks => Ok (lit "{" ++ join (lit ", ") chunks ++ lit "}")
      | Raise e => Raise e
      end
  | PObj _ => Raise (not_serializable v)
  end.

Definition json_dumps (obj : pyval) : result pystr := json_encode obj.

(** [json.loads].  [None] stands for [JSONDecodeError], and also for a
    document with a float literal, which has no counterpart among the
    values above. *)

Definition is_ws (c : N) : bool :=
  ((c =? 32) || (c =? 9) || (c =? 10) || (c =? 13))%N.

Fixpoint skip_ws (s : pystr) : pystr :=
  match s with
  | c :: s' => if is_ws c then skip_ws s' else s
  | [] => []
  end.

Definition is_digit (c : N) : bool := ((48 <=? c) && (c <=? 57))%N.

Definition hex_value (c : N) : option N :=
  (if (48 <=? c) && (c <=? 57) then Some (c - 48)
   else if (97 <=? c) && (c <=? 102) then Some (c - 87)
   else if (65 <=? c) && (c <=? 70) then Some (c - 55)
   else None)%N.

Definition decode_uXXXX (h1 h2 h3 h4 : N) : option N :=
  match hex_value h1, hex_value h2, hex_value h3, hex_value h4 with
  | Some a, Some b, Some c, Some d => Some (((a * 16 + b) * 16 + c) * 16 + d)%N
  | _, _, _, _ => None
  end.

(** [BACKSLASH]: the character after a backslash, other than [u]. *)
Definition unescape (e : N) : option N :=
  (if e =? 34 then Some 34
   else if e =? 92 then Some 92
   else if e =? 47 then Some 47
   else if e =? 98 then Some 8
   else if e =? 102 then Some 12
   else if e =? 110 then Some 10
   else if e =? 114 then Some 13
   else if e =? 116 then Some 9
   else None)%N.

Definition cons_fst {A B} (a : A) (r : option (list A * B)) : option (list A * B) :=
  match r with
  | Some (l, rest) => Some (a :: l, rest)
  | None => None
  end.

(** [scanstring], strict, entered after the opening quote. *)
Fixpoint scanstring (s : pystr) : option (pystr * pystr) :=
  match s with
  | [] => None
  | c :: s1 =>
      if (c =? 34)%N then Some ([], s1)
      else if (c =? 92)%N then
        match s1 with
        | [] => None
        | e :: s2 =>
            if (e =? 117)%N then
              match s2 with
              | h1 :: h2 :: h3 :: h4 :: s3 =>
                  match decode_uXXXX h1 h2 h3 h4 with
                  | None => None
                  | Some uni =>
                      if ((55296 <=? uni) && (uni <=? 56319))%N then
                        match s3 with
                        | b :: u :: s4 =>
                            if ((b =? 92) && (u =? 117))%N then
                              match s4 with
                              | k1 :: k2 :: k3 :: k4 :: s5 =>
                                  match decode_uXXXX k1 k2 k3 k4 with
                                  | None => None
                                  | Some uni2 =>
                                      if ((56320 <=? uni2) && (uni2 <=? 57343))%N
                                      then cons_fst (65536 + (N.lor (N.shiftl (uni - 55296) 10)
                                                                    (uni2 - 56320)))%N
                                                    (scanstring s5)
                                      else cons_fst uni (scanstring s3)
                                  end
                              | _ => None
                              end
                            else cons_fst uni (scanstring s3)
                        | _ => cons_fst uni (scanstring s3)
                        end
                      else cons_fst uni (scanstring s3)
                  end
              | _ => None
              end
            else
              match unescape e with
              | Some ch => cons_fst ch (scanstring s2)
              | None => None
              end
        end
      else if (c <? 32)%N then None
      else cons_fst c (scanstring s1)
  end.

(** The integer part of [NUMBER_RE]: [0], or a non-zero digit and the
    digits after it. *)
Fixpoint take_digits (s : pystr) : pystr * pystr :=
  match s with
  | c :: s' =>
      if is_digit c
      then let '(ds, rest) := take_digits s' in (c :: ds, rest)
      else ([], s)
  | [] => ([], [])
  end.

Definition int_of_digits (ds : pystr) : Z :=
  fold_left (fun acc c => 10 * acc + Z.of_N (c - 48)) ds 0.

Definition starts_fraction (s : pystr) : bool :=
  match s with
  | c :: d :: _ => (c =? 46)%N && is_digit d
  | _ => false
  end.

Definition starts_exponent (s : pystr) : bool :=
  match s with
  | c :: s1 =>
      ((c =? 101) || (c =? 69))%N &&
      match s1 with
      | d :: s2 =>
          is_digit d ||
          (((d =? 43) || (d =? 45))%N &&
           match s2 with d' :: _ => is_digit d' | [] => false end)
      | [] => false
      end
  | [] => false
  end.

Definition match_number (s : pystr) : option (pyval * pystr) :=
  let '(neg, s1) :=
    match s with
    | c :: s' => if (c =? 45)%N then (true, s') else (false, s)
    | [] => (false, s)
    end in
  match s1 with
  | [] => None
  | c :: s2 =>
      if negb (is_digit c) then None
      else
        let '(ds, rest) :=
          if (c =? 48)%N then ([c], s2)
          else let '(ds, rest) := take_digits s2 in (c :: ds, rest) in
        if starts_fraction rest || starts_exponent rest then None
        else Some (PInt (if neg then - int_of_digits ds else int_of_digits ds), rest)
  end.

(** [dict(pairs)]: a later pair with a key already present replaces the
    value in place. *)
Fixpoint dict_set (d : list (pystr * pyval)) (k : pystr) (v : pyval) : list (pystr * pyval) :=
  match d with
  | [] => [(k, v)]
  | (k', v') :: d' =>
      if decide (k' = k) then (k, v) :: d' else (k', v') :: dict_set d' k v
  end.

Definition dict_of_pairs (pairs : list (pystr * pyval)) : list (pystr * pyval) :=
  fold_left (fun d kv => dict_set d (fst kv) (snd kv)) pairs [].

Section Containers.
Variable scan_once : pystr -> option (pyval * pystr).

(** The loop of [JSONArray], entered at the first element. *)
Fixpoint parse_array_items (fuel : nat) (s : pystr) : option (list pyval * pystr) :=
  match fuel with
  | O => None
  | S fuel' =>
      match scan_once s with
      | None => None
      | Some (v, s1) =>
          match skip_ws s1 with
          | c :: s2 =>
              if (c =? 93)%N then Some ([v], s2)
              else if (c =? 44)%N
                   then cons_fst v (parse_array_items fuel' (skip_ws s2))
                   else None
          | [] => None
          end
      end
  end.

(** The loop of [JSONObject], entered at the quote of the first key. *)
Fixpoint parse_object_pairs (fuel : nat) (s : pystr)
  : option (list (pystr * pyval) * pystr) :=
  match fuel with
  | O => None
  | S fuel' =>
      match s with
      | q :: s0 =>
          if negb (q =? 34)%N then None
          else
            match scanstring s0 with
            | None => None
            | Some (key, s1) =>
                match skip_ws s1 with
                | c :: s2 =>
                    if negb (c =? 58)%N then None
                    else
                      match scan_once (skip_ws s2) with
                      | None => None
                      | Some (v, s3) =>
                          match skip_ws s3 with
                          | c' :: s4 =>
                              if (c' =? 125)%N then Some ([(key, v)], s4)
                              else if (c' =? 44)%N
                                   then cons_fst (key, v)
                                          (parse_object_pairs fuel' (skip_ws s4))
                                   else None
                          | [] => None
                          end
                      end
                | [] => None
                end
            end
      | [] => None
      end
  end.
End Containers.

Definition strip_prefix (p s : pystr) : option pystr :=
  if starts_with p s then Some (drop (length p) s) else None.

Fixpoint scan_once (fuel : nat) (s : pystr) : option (pyval * pystr) :=
  match fuel with
  | O => None
  | S fuel' =>
      match s with
      | [] => None
      | c :: s1 =>
          if (c =? 34)%N then
            match scanstring s1 with
            | Some (str, rest) => Some (PStr str, rest)
            | None => None
            end
          else if (c =? 123)%N then
            match skip_ws s1 with
            | c' :: s2 =>
                if (c' =? 125)%N then Some (PDict [], s2)
                else
                  match parse_object_pairs (scan_once fuel') fuel' (skip_ws s1) with
                  | Some (pairs, rest) => Some (PDict (dict_of_pairs pairs), rest)
                  | None => None
                  end
            | [] => None
            end
          else if (c =? 91)%N then
            match skip_ws s1 with
            | c' :: s2 =>
                if (c' =? 93)%N then Some (PList [], s2)
                else
                  match parse_array_items (scan_once fuel') fuel' (skip_ws s1) with
                  | Some (items, rest) => Some (PList items, rest)
                  | None => None
                  end
            | [] => None
            end
          else
            match strip_prefix (lit "null") s with
            | Some rest => Some (PNone, rest)
            | None =>
            match strip_prefix (lit "true") s with
            | Some rest => Some (PBool true, rest)
            | None =>
            match strip_prefix (lit "false") s with
            | Some rest => Some (PBool false, rest)
            | None => match_number s
            end end end
      end
  end.

(** [JSONDecoder.decode]: white space, one value, white space, end. *)
Definition json_loads (s : pystr) : option pyval :=
  match scan_once (length s) (skip_ws s) with
  | Some (v, rest) =>
      match skip_ws rest with
      | [] => Some v
      | _ :: _ => None
      end
  | None => None
  end.

(** ** What [json] maps to itself

    [json_native v]: [v] is built from [None], booleans, integers, strings,
    lists and dictionaries, and no dictionary in it has a key twice (as in
    every real [dict]). *)

Fixpoint json_native (v : pyval) : bool :=
  match v with
  | PNone | PBool _ | PInt _ | PStr _ => true
  | PList items => forallb json_native items
  | PDict entries =>
      bool_decide (NoDup (map fst entries))
      && forallb (fun kv => json_native (snd kv)) entries
  | PTuple _ | PObj _ => false
  end.

Fixpoint size (v : pyval) : nat :=
  match v with
  | PList items | PTuple items => S (list_sum (map size items))
  | PDict entries => S (list_sum (map (fun kv => size (snd kv)) entries))
  | _ => 1%nat
  end.

(** The character after an integer literal must end it. *)
Definition number_stop (rest : pystr) : bool :=
  match rest with
  | [] => true
  | c :: _ => negb (is_digit c || (c =? 46) || (c =? 101) || (c =? 69))%N
  end.

(** ** The collaborators outside the repository *)

(** Two builtins whose result depends on the Unicode database: [int(s)]
    (white space and digits of every script are accepted; [ValueError]
    otherwise) and the text that [str(v)] gives for a container or a foreign
    object (the [repr] of its items, quoted by [str.isprintable]). *)
Class Builtins : Type := {
  py_int : pystr -> result Z;
  py_repr : pyval -> pystr
}.

(** [datasets.load_dataset(name, subset, split=...)]: the rows of the split,
    or the exception of the hub (network, not found, malformed). *)
Class DatasetSource : Type :=
  load_dataset : pystr -> pystr -> pystr -> result (list pyval).

(** [azure.storage.blob]: every call acts on the state of the account and
    either returns or raises. *)
Class BlobService (Store : Type) : Type := {
  from_connection_string : pystr -> Store -> result unit * Store;
  get_container_client : pystr -> Store -> result unit * Store;
  container_exists : pystr -> Store -> result bool * Store;
  create_container : pystr -> Store -> result unit * Store;
  get_blob_client : pystr -> pystr -> Store -> result unit * Store;
  upload_blob : pystr -> pystr -> pystr -> bool -> Store -> result unit * Store
}.

(** The calls made to the storage SDK, in order, each with its outcome:
    [returned] is false when the call raised. *)
Inductive sdk_call : Type :=
  | FromConnectionString (conn_str : pystr)
  | GetContainerClient (container : pystr)
  | ContainerExists (container : pystr)
  | CreateContainer (container : pystr)
  | GetBlobClient (container blob : pystr)
  | UploadBlob (container blob data : pystr) (overwrite : bool).

Record sdk_event : Type := Event { call : sdk_call; returned : bool }.

Definition is_ok {A} (r : result A) : bool :=
  match r with
  | Ok _ => true
  | Raise _ => false
  end.

(** ** The world of a call *)

Inductive level : Type := INFO | ERROR.

Record datetime : Type := {
  year : N; month : N; day : N;
  hour : N; minute : N; second : N; microsecond : N
}.

Definition zfill (width : nat) (s : pystr) : pystr :=
  replicate (width - length s) 48%N ++ s.

Definition decimal (width : nat) (n : N) : pystr :=
  zfill width (str_of_int (Z.of_N n)).

(** [datetime.isoformat()] of a naive datetime: the microseconds are
    printed only when they are not zero. *)
Definition isoformat (d : datetime) : pystr :=
  decimal 4 (year d) ++ lit "-" ++ decimal 2 (month d) ++ lit "-" ++ decimal 2 (day d)
  ++ lit "T" ++ decimal 2 (hour d) ++ lit ":" ++ decimal 2 (minute d)
  ++ lit ":" ++ decimal 2 (second d)
  ++ (if (microsecond d =? 0)%N then [] else lit "." ++ decimal 6 (microsecond d)).

Record World (Store : Type) : Type := {
  environ : gmap (list N) (list N);
  utcnow : datetime;
  log : list (level * pystr);
  store : Store;
  trace : list sdk_event
}.

Arguments environ {Store} w.
Arguments utcnow {Store} w.
Arguments log {Store} w.
Arguments store {Store} w.
Arguments trace {Store} w.


Definition with_log {Store : Type} (l : list (level * pystr)) (w : World Store) : World Store :=
  {| environ := environ w; utcnow := utcnow w; log := l; store := store w; trace := trace w |}.

(** ** Statements: state and exceptions *)

Definition M (Store A : Type) : Type := World Store -> result A * World Store.

Definition ret {Store A : Type} (a : A) : M Store A := fun w => (Ok a, w).

Definition raise {Store A : Type} (e : exn) : M Store A := fun w => (Raise e, w).

Definition bind {Store A B : Type} (m : M Store A) (k : A -> M Store B) : M Store B :=
  fun w =>
    match m w with
    | (Ok a, w') => k a w'
    | (Raise e, w') => (Raise e, w')
    end.

(** [try: m except Exception as e: handler e].  What [m] did to the world
    before it raised stays done. *)
Definition try_except {Store A : Type} (m : M Store A) (handler : exn -> M Store A) : M Store A :=
  fun w =>
    match m w with
    | (Ok a, w') => (Ok a, w')
    | (Raise e, w') => handler e w'
    end.

Definition lift {Store A : Type} (r : result A) : M Store A := fun w => (r, w).

Declare Scope stmt_scope.
Delimit Scope stmt_scope with stmt.
Notation "x <- m ;; k" := (bind m (fun x => k))
  (at level 20, m at level 99, k at level 200, only parsing) : stmt_scope.
Notation "m ;; k" := (bind m (fun _ => k))
  (at level 100, k at level 200, only parsing, right associativity) : stmt_scope.

(** [self.logger.info(msg)] and [self.logger.error(msg)]. *)
Definition logger {Store : Type} (lv : level) (msg : pystr) : M Store unit :=
  fun w => (Ok tt, with_log (log w ++ [(lv, msg)]) w).

(** [os.environ.get(key)] and [os.environ.get(key, default)]. *)
Definition environ_get {Store : Type} (key : string) : M Store (option pystr) :=
  fun w => (Ok (environ w !! lit key), w).

Definition environ_get_default {Store : Type} (key dflt : string) : M Store pystr :=
  fun w => (Ok (default (lit dflt) (environ w !! lit key)), w).

Definition datetime_utcnow {Store : Type} : M Store datetime :=
  fun w => (Ok (utcnow w), w).

(** A call of the SDK: its effect on the account, and its place in the
    trace whether it returns or raises. *)
Definition sdk {Store A : Type} (c : sdk_call) (op : Store -> result A * Store) : M Store A :=
  fun w =>
    let '(r, s) := op (store w) in
    (r, {| environ := environ w; utcnow := utcnow w; log := log w;
           store := s; trace := trace w ++ [Event c (is_ok r)] |}).

(** The storage calls made between two worlds. *)
Definition calls_since {Store : Type} (w w' : World Store) : list sdk_event :=
  drop (length (trace w)) (trace w').

(** ** Operations on values *)

Fixpoint dict_lookup (d : list (pystr * pyval)) (k : pystr) : option pyval :=
  match d with
  | [] => None
  | (k', v) :: d' => if decide (k' = k) then Some v else dict_lookup d' k
  end.

(** [obj.get(key, default)]: only a [dict] has the method. *)
Definition py_get (obj : pyval) (key : string) (dflt : pyval) : result pyval :=
  match obj with
  | PDict d => Ok (default dflt (dict_lookup d (lit key)))
  | _ => Raise (AttributeError obj "get")
  end.

(** [key in obj] and [obj[key]].  Both follow a successful [obj.get] in
    the source, so [obj] is a [dict] when they run; no other type is
    modelled here. *)
Definition py_contains (key : string) (obj : pyval) : result bool :=
  match obj with
  | PDict d => Ok (bool_decide (is_Some (dict_lookup d (lit key))))
  | _ => Raise (TypeError (lit "argument of type '" ++ type_name obj
                               ++ lit "' is not iterable"))
  end.

Definition py_getitem (obj : pyval) (key : string) : result pyval :=
  match obj with
  | PDict d =>
      match dict_lookup d (lit key) with
      | Some v => Ok v
      | None => Raise (Exn (lit "KeyError") (lit "'" ++ lit key ++ lit "'"))
      end
  | _ => Raise (TypeError (lit "'" ++ type_name obj ++ lit "' object is not subscriptable"))
  end.

(** [obj.replace(old, new)]: only a [str] has the method. *)
Definition py_replace (obj : pyval) (old new : string) : result pystr :=
  match obj with
  | PStr s => Ok (str_replace (lit old) (lit new) s)
  | _ => Raise (AttributeError obj "replace")
  end.

(** [{v}] in an f-string, that is [format(v, '')]. *)
Definition format_value {builtins : Builtins} (v : pyval) : pystr :=
  match v with
  | PStr s => s
  | PInt z => str_of_int z
  | PBool true => lit "True"
  | PBool false => lit "False"
  | PNone => lit "None"
  | PList _ | PTuple _ | PDict _ | PObj _ => py_repr v
  end.

(** [Dataset.select(range(n))] of the [datasets] library, on the rows of
    the dataset.  An empty dataset is returned as it is ("If the array is
    empty we do nothing").  A range with [0 <= n] is contiguous and is cut
    out as a slice, after [_check_valid_indices_value] on its first and
    last index; a negative [n] gives an empty range, hence no row. *)
Definition check_valid_indices_value (index size : Z) : result unit :=
  if ((index <? 0) && (index + size <? 0)) || (size <=? index)
  then Raise (IndexError (lit "Index " ++ str_of_int index
                              ++ lit " out of range for dataset of size "
                              ++ str_of_int size ++ lit "."))
  else Ok tt.

Definition select_range (dataset : list pyval) (n : Z) : result (list pyval) :=
  let size := Z.of_nat (length dataset) in
  if size =? 0 then Ok dataset
  else if 0 <=? n then
    rbind (check_valid_indices_value 0 size) (fun _ =>
    rbind (check_valid_indices_value (0 + n - 1) size) (fun _ =>
    Ok (take (Z.to_nat n) dataset)))
  else Ok [].

(** ** [class WikipediaDataExtractor] *)

Record WikipediaDataExtractor : Type := {
  dataset_name : pystr;
  subset : pystr;
  sample_size : Z
}.

Section Extractor.
Context {builtins : Builtins} {hub : DatasetSource}
        {Store : Type} {service : BlobService Store}.

Local Open Scope stmt_scope.

Definition __init__ : M Store WikipediaDataExtractor :=
  name <- environ_get_default "WIKIPEDIA_DATASET_NAME" "wikimedia/wikipedia" ;;
  sub <- environ_get_default "WIKIPEDIA_SUBSET" "20220301.en" ;;
  size_text <- environ_get_default "WIKIPEDIA_SAMPLE_SIZE" "1000" ;;
  size <- lift (py_int size_text) ;;
  ret {| dataset_name := name; subset := sub; sample_size := size |}.

Definition load_wikipedia_subset (self : WikipediaDataExtractor)
    (sample_size_arg : option Z) : M Store (list pyval) :=
  let sample_size := default (sample_size self) sample_size_arg in
  try_except
    (logger INFO (lit "Loading Wikipedia dataset " ++ dataset_name self
                      ++ lit "/" ++ subset self) ;;
     dataset <- lift (load_dataset (dataset_name self) (subset self) (lit "train")) ;;
     logger INFO (lit "Selecting " ++ str_of_int sample_size
                      ++ lit " articles from dataset") ;;
     sampled_dataset <- lift (select_range dataset sample_size) ;;
     let articles := sampled_dataset in
     logger INFO (lit "Successfully loaded "
                      ++ str_of_int (Z.of_nat (length articles))
                      ++ lit " articles") ;;
     ret articles)
    (fun e =>
       logger ERROR (lit "Error loading Wikipedia dataset: " ++ exn_text e) ;;
       raise e).

Definition extract_metadata (self : WikipediaDataExtractor) (article : pyval)
  : M Store pyval :=
  try_except
    (id <- lift (py_get article "id" (PStr [])) ;;
     title <- lift (py_get article "title" (PStr [])) ;;
     url <- lift (py_get article "url" (PStr [])) ;;
     now <- datetime_utcnow ;;
     let metadata := [(lit "id", id); (lit "title", title); (lit "url", url);
                      (lit "last_updated", PStr (isoformat now))] in
     has_categories <- lift (py_contains "categories" article) ;;
     if has_categories : bool then
       categories <- lift (py_getitem article "categories") ;;
       ret (PDict (dict_set metadata (lit "categories") categories))
     else ret (PDict metadata))
    (fun e =>
       logger ERROR (lit "Error extracting metadata: " ++ exn_text e) ;;
       raise e).

(** Line 116: the name of the blob. *)
Definition blob_name (article : pyval) : result pystr :=
  rbind (py_get article "id" (PStr (lit "unknown"))) (fun id =>
  rbind (py_get article "title" (PStr (lit "untitled"))) (fun title =>
  rbind (py_replace title " " "_") (fun title_text =>
  Ok (format_value id ++ lit "-" ++ title_text ++ lit ".json")))).

Definition save_to_blob_storage (self : WikipediaDataExtractor) (article : pyval)
    (container_name_arg : option pystr) : M Store bool :=
  container_name <-
    match container_name_arg with
    | Some c => ret c
    | None => environ_get_default "AZURE_STORAGE_CONTAINER_NAME" "wikipedia-raw"
    end ;;
  connection_string <- environ_get "AZURE_STORAGE_CONNECTION_STRING" ;;
  match connection_string with
  | None | Some [] =>
      logger ERROR (lit "Missing Azure Storage connection string") ;;
      ret false
  | Some conn_str =>
      try_except
        (sdk (FromConnectionString conn_str) (from_connection_string conn_str) ;;
         sdk (GetContainerClient container_name) (get_container_client container_name) ;;
         present <- sdk (ContainerExists container_name) (container_exists container_name) ;;
         (if present : bool then ret tt
          else
            logger INFO (lit "Creating container " ++ container_name) ;;
            sdk (CreateContainer container_name) (create_container container_name)) ;;
         name <- lift (blob_name article) ;;
         sdk (GetBlobClient container_name name) (get_blob_client container_name name) ;;
         article_json <- lift (json_dumps article) ;;
         sdk (UploadBlob container_name name article_json true)
             (upload_blob container_name name article_json true) ;;
         logger INFO (lit "Successfully uploaded article to " ++ name) ;;
         ret true)
        (fun e =>
           logger ERROR (lit "Error saving to Blob Storage: " ++ exn_text e) ;;
           ret false)
  end.
End Extractor.

(** ** Stand-ins for the collaborators

    The tests of the repository replace the hub and the SDK by mocks.  The
    instances below play that part for the closed examples: a decimal
    [int], a hub that serves fixed rows, an account kept in memory. *)

Definition ascii_int (s : pystr) : result Z :=
  let invalid := Raise (Exn (lit "ValueError")
                            (lit "invalid literal for int() with base 10")) in
  let '(negative, body) :=
    match s with
    | c :: s' =>
        if (c =? 45)%N then (true, s')
        else if (c =? 43)%N then (false, s') else (false, s)
    | [] => (false, s)
    end in
  match body with
  | [] => invalid
  | _ :: _ =>
      if forallb is_digit body
      then Ok (if negative then - int_of_digits body else int_of_digits body)
      else invalid
  end.

#[export] Instance ascii_builtins : Builtins := {|
  py_int := ascii_int;
  py_repr := fun v => lit "<" ++ type_name v ++ lit ">"
|}.

Definition fixed_source (rows : list pyval) : DatasetSource :=
  fun _ _ _ => Ok rows.

Definition failing_source (e : exn) : DatasetSource :=
  fun _ _ _ => Raise e.

(** An account in memory: container name to blob name to content. *)
Abbreviation MemStore := (gmap (list N) (gmap (list N) (list N))).

Definition mem_upload_blob (container blob data : pystr) (overwrite : bool)
    (s : MemStore) : result unit * MemStore :=
  match s !! container with
  | None => (Raise (Exn (lit "ResourceNotFoundError") (lit "ContainerNotFound")), s)
  | Some blobs =>
      if negb overwrite && bool_decide (is_Some (blobs !! blob))
      then (Raise (Exn (lit "ResourceExistsError") (lit "BlobAlreadyExists")), s)
      else (Ok tt, <[container := <[blob := data]> blobs]> s)
  end.

Definition mem_create_container (container : pystr) (s : MemStore)
    : result unit * MemStore :=
  match s !! container with
  | Some _ => (Raise (Exn (lit "ResourceExistsError") (lit "ContainerAlreadyExists")), s)
  | None => (Ok tt, <[container := ∅]> s)
  end.

#[export] Instance mem_service : BlobService MemStore := {|
  from_connection_string := fun _ s => (Ok tt, s);
  get_container_client := fun _ s => (Ok tt, s);
  container_exists := fun container s => (Ok (bool_decide (is_Some (s !! container))), s);
  create_container := mem_create_container;
  get_blob_client := fun _ _ s => (Ok tt, s);
  upload_blob := mem_upload_blob
|}.

(** The rows of [mock_dataset] in the tests. *)
Definition sample_entries_1 : list (pystr * pyval) :=
  [(lit "id", PStr (lit "12345"));
   (lit "url", PStr (lit "https://en.wikipedia.org/wiki/Sample_Article_1"));
   (lit "title", PStr (lit "Sample Article 1"));
   (lit "text", PStr (lit "This is the content of sample article 1."))].

Definition sample_article_1 : pyval := PDict sample_entries_1.

Definition sample_article_2 : pyval :=
  PDict [(lit "id", PStr (lit "67890"));
         (lit "url", PStr (lit "https://en.wikipedia.org/wiki/Sample_Article_2"));
         (lit "title", PStr (lit "Sample Article 2"));
         (lit "text", PStr (lit "This is the content of sample article 2."))].

Definition sample_data : list pyval := [sample_article_1; sample_article_2].

Definition epoch : datetime :=
  {| year := 2024; month := 5; day := 1; hour := 9; minute := 30; second := 7;
     microsecond := 1500 |}.

(** A fresh process: the given environment, an empty account, nothing
    logged. *)
Definition fresh_world (env : gmap (list N) (list N)) : World MemStore :=
  {| environ := env; utcnow := epoch; log := []; store := ∅; trace := [] |}.

Definition configured_env : gmap (list N) (list N) :=
  {[ lit "AZURE_STORAGE_CONNECTION_STRING" := lit "UseDevelopmentStorage=true" ]}.

Definition test_extractor : WikipediaDataExtractor :=
  {| dataset_name := lit "wikimedia/wikipedia"; subset := lit "20220301.en";
     sample_size := 10 |}.

(** ** Auxiliary notions of the proofs *)

(** Induction on values, through the lists nested in them. *)

Section PyvalInd.
Variable P : pyval -> Prop.
Hypothesis HNone : P PNone.
Hypothesis HBool : forall b, P (PBool b).
Hypothesis HInt : forall z, P (PInt z).
Hypothesis HStr : forall s, P (PStr s).
Hypothesis HList : forall items, Forall P items -> P (PList items).
Hypothesis HTuple : forall items, Forall P items -> P (PTuple items).
Hypothesis HDict :
  forall entries, Forall (fun kv => P (snd kv)) entries -> P (PDict entries).
Hypothesis HObj : forall cls, P (PObj cls).

Fixpoint pyval_ind (v : pyval) : P v :=
  match v with
  | PNone => HNone
  | PBool b => HBool b
  | PInt z => HInt z
  | PStr s => HStr s
  | PList items =>
      HList items
        ((fix go (l : list pyval) : Forall P l :=
            match l with
            | [] => @List.Forall_nil _ P
            | x :: l' => @List.Forall_cons _ P x l' (pyval_ind x) (go l')
            end) items)
  | PTuple items =>
      HTuple items
        ((fix go (l : list pyval) : Forall P l :=
            match l with
            | [] => @List.Forall_nil _ P
            | x :: l' => @List.Forall_cons _ P x l' (pyval_ind x) (go l')
            end) items)
  | PDict entries =>
      HDict entries
        ((fix go (l : list (pystr * pyval)) : Forall (fun kv => P (snd kv)) l :=
            match l with
            | [] => @List.Forall_nil _ _
            | kv :: l' => @List.Forall_cons _ _ kv l' (pyval_ind (snd kv)) (go l')
            end) entries)
  | PObj cls => HObj cls
  end.
End PyvalInd.

Definition digit_step (acc : Z) (c : N) : Z := 10 * acc + Z.of_N (c - 48).

(** A text that begins with a value: no white space, no closing bracket. *)
Definition starts_value (s : pystr) : Prop :=
  exists c tl, s = c :: tl /\ is_ws c = false
               /\ (c =? 93)%N = false /\ (c =? 125)%N = false.

Definition sep : pystr := lit ", ".

Definition encode_entry (kv : pystr * pyval) : result pystr :=
  match json_encode (snd kv) with
  | Ok txt => Ok (encode_basestring (fst kv) ++ lit ": " ++ txt)
  | Raise e => Raise e
  end.

(** What the induction gives for one element, at fuel [f]. *)
Definition scans_back (f : nat) (v : pyval) : Prop :=
  forall txt rest,
    json_encode v = Ok txt -> number_stop rest = true ->
    scan_once f (txt ++ rest) = Some (v, rest).

(** The words of the specification for the title in a blob name: every
    space becomes an underscore. *)
Definition spaces_to_underscores (title : pystr) : pystr :=
  map (fun c => if (c =? 32)%N then 95%N else c) title.


Section SaveSteps.
Context {builtins : Builtins} {Store : Type} {service : BlobService Store}.

(** The body of the [try] in [save_to_blob_storage] and its handler. *)
Definition save_body (conn_str container_name : pystr) (article : pyval) : M Store bool :=
  bind (sdk (FromConnectionString conn_str) (from_connection_string conn_str)) (fun _ =>
  bind (sdk (GetContainerClient container_name) (get_container_client container_name)) (fun _ =>
  bind (sdk (ContainerExists container_name) (container_exists container_name)) (fun present =>
  bind (if present : bool then ret tt
        else bind (logger INFO (lit "Creating container " ++ container_name)) (fun _ =>
             sdk (CreateContainer container_name) (create_container container_name))) (fun _ =>
  bind (lift (blob_name article)) (fun name =>
  bind (sdk (GetBlobClient container_name name) (get_blob_client container_name name)) (fun _ =>
  bind (lift (json_dumps article)) (fun article_json =>
  bind (sdk (UploadBlob container_name name article_json true)
            (upload_blob container_name name article_json true)) (fun _ =>
  bind (logger INFO (lit "Successfully uploaded article to " ++ name)) (fun _ =>
  ret true))))))))).

Definition save_handler (e : exn) : M Store bool :=
  bind (logger ERROR (lit "Error saving to Blob Storage: " ++ exn_text e))
       (fun _ => ret false).

Definition container_at_call (container_name : option pystr) (w : World Store) : pystr :=
  default (default (lit "wikipedia-raw")
             (environ w !! lit "AZURE_STORAGE_CONTAINER_NAME")) container_name.
End SaveSteps.

(** ** The paths of one [save_to_blob_storage] *)

Definition failure_line (e : exn) : level * pystr :=
  (ERROR, lit "Error saving to Blob Storage: " ++ exn_text e).

Definition creating_line (container : pystr) : level * pystr :=
  (INFO, lit "Creating container " ++ container).

Definition uploaded_line (name : pystr) : level * pystr :=
  (INFO, lit "Successfully uploaded article to " ++ name).

(** From the blob name on: the result, the storage calls and the log
    lines. *)
Inductive save_tail {builtins : Builtins} (container : pystr) (article : pyval)
  : result bool -> list sdk_event -> list (level * pystr) -> Prop :=
  | tail_name_raises e :
      blob_name article = Raise e ->
      save_tail container article (Ok false) [] [failure_line e]
  | tail_blob_client_raises name e :
      blob_name article = Ok name ->
      save_tail container article (Ok false)
        [Event (GetBlobClient container name) false] [failure_line e]
  | tail_dumps_raises name e :
      blob_name article = Ok name ->
      json_dumps article = Raise e ->
      save_tail container article (Ok false)
        [Event (GetBlobClient container name) true] [failure_line e]
  | tail_upload_raises name data e :
      blob_name article = Ok name ->
      json_dumps article = Ok data ->
      save_tail container article (Ok false)
        [Event (GetBlobClient container name) true;
         Event (UploadBlob container name data true) false]
        [failure_line e]
  | tail_uploaded name data :
      blob_name article = Ok name ->
      json_dumps article = Ok data ->
      save_tail container article (Ok true)
        [Event (GetBlobClient container name) true;
         Event (UploadBlob container name data true) true]
        [uploaded_line name].

(** A whole run with a connection string [conn_str]. *)
Inductive save_path {builtins : Builtins} (conn_str container : pystr) (article : pyval)
  : result bool -> list sdk_event -> list (level * pystr) -> Prop :=
  | path_connect_raises e :
      save_path conn_str container article (Ok false)
        [Event (FromConnectionString conn_str) false] [failure_line e]
  | path_client_raises e :
      save_path conn_str container article (Ok false)
        [Event (FromConnectionString conn_str) true;
         Event (GetContainerClient container) false]
        [failure_line e]
  | path_exists_raises e :
      save_path conn_str container article (Ok false)
        [Event (FromConnectionString conn_str) true;
         Event (GetContainerClient container) true;
         Event (ContainerExists container) false]
        [failure_line e]
  | path_create_raises e :
      save_path conn_str container article (Ok false)
        [Event (FromConnectionString conn_str) true;
         Event (GetContainerClient container) true;
         Event (ContainerExists container) true;
         Event (CreateContainer container) false]
        [creating_line container; failure_line e]
  | path_container_present r calls lines :
      save_tail container article r calls lines ->
      save_path conn_str container article r
        (Event (FromConnectionString conn_str) true
         :: Event (GetContainerClient container) true
         :: Event (ContainerExists container) true
         :: calls)
        lines
  | path_container_created r calls lines :
      save_tail container article r calls lines ->
      save_path conn_str container article r
        (Event (FromConnectionString conn_str) true
         :: Event (GetContainerClient container) true
         :: Event (ContainerExists container) true
         :: Event (CreateContainer container) true
         :: calls)
        (creating_line container :: lines).

(** The log lines written between two worlds. *)
Definition lines_since {Store : Type} (w w' : World Store) : list (level * pystr) :=
  drop (length (log w)) (log w').

(** The kinds of storage call, in the order of the source. *)
Inductive call_kind : Type :=
  | Connect | ContainerClient | Exists | Create | BlobClient | Upload.

Definition kind_of (c : sdk_call) : call_kind :=
  match c with
  | FromConnectionString _ => Connect
  | GetContainerClient _ => ContainerClient
  | ContainerExists _ => Exists
  | CreateContainer _ => Create
  | GetBlobClient _ _ => BlobClient
  | UploadBlob _ _ _ _ => Upload
  end.

(** What a storage call of a run may address: the connection string and
    the container of the moment, the blob name and the payload of the
    article, with overwrite. *)
Definition call_on_target {builtins : Builtins} (conn_str : option pystr)
    (container : pystr) (article : pyval) (c : sdk_call) : Prop :=
  match c with
  | FromConnectionString x => conn_str = Some x
  | GetContainerClient c' | ContainerExists c' | CreateContainer c' => c' = container
  | GetBlobClient c' name => c' = container /\ blob_name article = Ok name
  | UploadBlob c' name data overwrite =>
      c' = container /\ blob_name article = Ok name
      /\ json_dumps article = Ok data /\ overwrite = true
  end.

(** Whether a run ended with an upload that returned. *)
Definition ends_with_upload (calls : list sdk_event) : bool :=
  match last calls with
  | Some (Event (UploadBlob _ _ _ _) true) => true
  | _ => false
  end.

(** ** Notions of the further properties *)

(** A text without control characters. *)
Abbreviation printable := (Forall (fun c : N => (32 <= c)%N)).

(** The account after a save: the container is there, and holds the
    payload under the blob name when both could be computed. *)
Definition account_after {builtins : Builtins} (container : pystr) (article : pyval) (s : MemStore) : MemStore :=
  let blobs := default ∅ (s !! container) in
  match blob_name article, json_dumps article with
  | Ok name, Ok data => <[container := <[name := data]> blobs]> s
  | _, _ => <[container := blobs]> s
  end.

Definition saveable {builtins : Builtins} (article : pyval) : bool :=
  is_ok (blob_name article) && is_ok (json_dumps article).

(** The datetimes of Python: years 1 to 9999, and so on.  (The day is
    not checked against the month here.) *)
Definition in_range (d : datetime) : bool :=
  ((1 <=? year d) && (year d <=? 9999) && (1 <=? month d) && (month d <=? 12)
   && (1 <=? day d) && (day d <=? 31) && (hour d <? 24) && (minute d <? 60)
   && (second d <? 60) && (microsecond d <? 1000000))%N.

(** A field of [width] digits at the head of a text. *)
Definition take_field (width : nat) (s : pystr) : option (N * pystr) :=
  let ds := take width s in
  if (length ds =? width)%nat && forallb is_digit ds
  then Some (Z.to_N (int_of_digits ds), drop width s)
  else None.

Definition expect (c : N) (s : pystr) : option pystr :=
  match s with
  | c' :: s' => if (c' =? c)%N then Some s' else None
  | [] => None
  end.

(** The reading of [YYYY-MM-DDTHH:MM:SS] and [YYYY-MM-DDTHH:MM:SS.ffffff],
    the two forms that [isoformat] writes. *)
Definition parse_timestamp (s : pystr) : option datetime :=
  '(y, s) ← take_field 4 s; s ← expect 45 s;
  '(mo, s) ← take_field 2 s; s ← expect 45 s;
  '(d, s) ← take_field 2 s; s ← expect 84 s;
  '(h, s) ← take_field 2 s; s ← expect 58 s;
  '(mi, s) ← take_field 2 s; s ← expect 58 s;
  '(sec, s) ← take_field 2 s;
  match s with
  | [] => Some {| year := y; month := mo; day := d; hour := h; minute := mi;
                  second := sec; microsecond := 0 |}
  | _ :: _ =>
      s ← expect 46 s;
      '(us, s) ← take_field 6 s;
      match s with
      | [] => Some {| year := y; month := mo; day := d; hour := h; minute := mi;
                      second := sec; microsecond := us |}
      | _ :: _ => None
      end
  end.

(** * Properties *)

(** ** Strings *)

Example lit_example : lit "a b" = [97%N; 32%N; 98%N].
Proof. reflexivity. Qed.

Example replace_example :
  str_replace (lit " ") (lit "_") (lit "Sample Article 1") = lit "Sample_Article_1".
Proof. reflexivity. Qed.

Example replace_empty_old :
  str_replace [] (lit "-") (lit "abc") = lit "-a-b-c-".
Proof. reflexivity. Qed.

Example replace_long_old :
  str_replace (lit "aa") (lit "b") (lit "aaaxaa") = lit "baxb".
Proof. reflexivity. Qed.

Example str_of_int_examples :
  str_of_int 0 = lit "0" /\ str_of_int (-42) = lit "-42" /\ str_of_int 1000 = lit "1000".
Proof. repeat split; reflexivity. Qed.

(** ** Strings through [json] *)

Lemma scanstring_escape_char c tail :
  scanstring (escape_char c ++ tail) = cons_fst c (scanstring tail).
Proof.
  destruct (N.ltb_spec c 32) as [Hlt | Hge].
  - destruct c as [|p]; [reflexivity|].
    do 5 (try (destruct p as [p|p|]; try lia)); reflexivity.
  - unfold escape_char.
    destruct (N.eqb_spec c 92) as [-> | H92]; [reflexivity|].
    destruct (N.eqb_spec c 34) as [-> | H34]; [reflexivity|].
    destruct (N.eqb_spec c 8); [lia|].
    destruct (N.eqb_spec c 12); [lia|].
    destruct (N.eqb_spec c 10); [lia|].
    destruct (N.eqb_spec c 13); [lia|].
    destruct (N.eqb_spec c 9); [lia|].
    destruct (N.ltb_spec c 32); [lia|].
    simpl.
    destruct (N.eqb_spec c 34); [done|].
    destruct (N.eqb_spec c 92); [done|].
    destruct (N.ltb_spec c 32); [lia|]. reflexivity.
Qed.

Lemma scanstring_escaped s rest :
  scanstring (flat_map escape_char s ++ 34%N :: rest) = Some (s, rest).
Proof.
  induction s as [|c s IH]; [reflexivity|].
  simpl flat_map. rewrite <- app_assoc, scanstring_escape_char, IH. reflexivity.
Qed.

(** ** Integers through [json] *)

Lemma digits_of_uint_digits d : forallb is_digit (digits_of_uint d) = true.
Proof. induction d; simpl; auto. Qed.

Lemma take_digits_app ds rest :
  forallb is_digit ds = true ->
  match rest with [] => true | c :: _ => negb (is_digit c) end = true ->
  take_digits (ds ++ rest) = (ds, rest).
Proof.
  intros Hds Hrest. induction ds as [|c ds IH]; simpl in *.
  - destruct rest as [|c rest]; [reflexivity|]. simpl.
    destruct (is_digit c); [discriminate | reflexivity].
  - apply andb_prop in Hds as [Hc Hds]. rewrite Hc, (IH Hds). reflexivity.
Qed.

Lemma fold_digits_pos d a :
  fold_left digit_step (digits_of_uint d) (Z.pos a) = Z.pos (Pos.of_uint_acc d a).
Proof.
  revert a. induction d; intros a; cbn [digits_of_uint fold_left Pos.of_uint_acc];
    [reflexivity | rewrite <- IHd; f_equal; unfold digit_step; lia ..].
Qed.

Lemma fold_digits_zero d :
  fold_left digit_step (digits_of_uint d) 0 = Z.of_N (Pos.of_uint d).
Proof.
  induction d; cbn [digits_of_uint fold_left Pos.of_uint];
    [reflexivity | exact IHd | apply (fold_digits_pos d) ..].
Qed.

Lemma int_of_digits_to_uint p :
  int_of_digits (digits_of_uint (Pos.to_uint p)) = Z.pos p.
Proof.
  unfold int_of_digits. change (fun acc c => 10 * acc + Z.of_N (c - 48)) with digit_step.
  rewrite fold_digits_zero, DecimalPos.Unsigned.of_to. reflexivity.
Qed.

Lemma unorm_to_uint p : Decimal.unorm (Pos.to_uint p) = Pos.to_uint p.
Proof.
  rewrite <- (DecimalPos.Unsigned.to_of (Pos.to_uint p)).
  rewrite DecimalPos.Unsigned.of_to. reflexivity.
Qed.

Lemma to_uint_head p :
  match Pos.to_uint p with
  | Decimal.Nil | Decimal.D0 _ => False
  | _ => True
  end.
Proof.
  pose proof (unorm_to_uint p) as Hn.
  pose proof (DecimalPos.Unsigned.to_uint_nonzero p) as Hz.
  destruct (Pos.to_uint p) as [|u| | | | | | | | |] eqn:E; try exact I.
  - exact (DecimalPos.Unsigned.to_uint_nonnil p E).
  - rewrite DecimalFacts.unorm_D0 in Hn.
    destruct (Decimal.uint_eq_dec u Decimal.Nil) as [-> | Hu]; [exact (Hz eq_refl)|].
    pose proof (DecimalFacts.nb_digits_unorm u Hu) as Hlen.
    rewrite Hn in Hlen. simpl in Hlen. lia.
Qed.

Lemma number_stop_spec rest :
  number_stop rest = true ->
  match rest with [] => true | c :: _ => negb (is_digit c) end = true
  /\ starts_fraction rest = false /\ starts_exponent rest = false.
Proof.
  destruct rest as [|c rest]; [auto|]. unfold number_stop, starts_fraction, starts_exponent.
  intros H. apply negb_true_iff in H.
  apply orb_false_iff in H as [H H69]. apply orb_false_iff in H as [H H101].
  apply orb_false_iff in H as [H H46].
  rewrite H, H46, H101, H69. repeat split; try reflexivity.
  destruct rest; reflexivity.
Qed.

Lemma match_number_digits (neg : bool) (c : N) (ds rest : pystr) :
  is_digit c = true -> (c =? 48)%N = false ->
  forallb is_digit ds = true -> number_stop rest = true ->
  match_number ((if neg then [45%N] else []) ++ c :: ds ++ rest)
  = Some (PInt (if neg then - int_of_digits (c :: ds) else int_of_digits (c :: ds)), rest).
Proof.
  intros Hc H48 Hds Hstop.
  destruct (number_stop_spec rest Hstop) as (Hnd & Hfr & Hex).
  assert (Hm : (c =? 45)%N = false).
  { unfold is_digit in Hc. apply andb_prop in Hc as [H1 H2].
    apply N.leb_le in H1. apply N.eqb_neq. lia. }
  unfold match_number.
  destruct neg; simpl app; cbn [N.eqb Pos.eqb]; rewrite ?Hm, Hc, H48; simpl negb; cbv iota;
    rewrite (take_digits_app ds rest Hds Hnd), Hfr, Hex; reflexivity.
Qed.

Lemma strip_prefix_ne (p s : pystr) a b p' s' :
  p = a :: p' -> s = b :: s' -> a <> b -> strip_prefix p s = None.
Proof.
  intros -> -> Hne. unfold strip_prefix. simpl.
  destruct (N.eqb_spec a b); [contradiction | reflexivity].
Qed.

Lemma scan_once_number f (neg : bool) (c : N) (tl : pystr) :
  is_digit c = true ->
  scan_once (S f) ((if neg then [45%N] else []) ++ c :: tl)
  = match_number ((if neg then [45%N] else []) ++ c :: tl).
Proof.
  intros Hc. destruct neg; [reflexivity|].
  unfold is_digit in Hc. apply andb_prop in Hc as [H1 H2].
  apply N.leb_le in H1. apply N.leb_le in H2.
  simpl app. cbn [scan_once].
  destruct (N.eqb_spec c 34); [lia|].
  destruct (N.eqb_spec c 123); [lia|].
  destruct (N.eqb_spec c 91); [lia|].
  rewrite (strip_prefix_ne (lit "null") _ 110%N c _ _ eq_refl eq_refl) by lia.
  rewrite (strip_prefix_ne (lit "true") _ 116%N c _ _ eq_refl eq_refl) by lia.
  rewrite (strip_prefix_ne (lit "false") _ 102%N c _ _ eq_refl eq_refl) by lia.
  reflexivity.
Qed.

Lemma str_of_int_shape z :
  z = 0 \/
  exists (neg : bool) (c : N) (ds : pystr),
    str_of_int z = (if neg then [45%N] else []) ++ c :: ds
    /\ is_digit c = true /\ (c =? 48)%N = false /\ forallb is_digit ds = true
    /\ z = (if neg then - int_of_digits (c :: ds) else int_of_digits (c :: ds)).
Proof.
  destruct z as [|p|p]; [left; reflexivity | right; exists false | right; exists true];
    unfold str_of_int; cbn [Z.to_int];
    pose proof (to_uint_head p) as Hh;
    pose proof (digits_of_uint_digits (Pos.to_uint p)) as Hd;
    pose proof (int_of_digits_to_uint p) as Hv;
    destruct (Pos.to_uint p) as [|u|u|u|u|u|u|u|u|u|u]; try contradiction;
    cbn [digits_of_uint] in *; eexists _, _; (split; [reflexivity|]);
    apply andb_prop in Hd as [Hd1 Hd2]; rewrite Hv; repeat split; auto.
Qed.

Lemma scan_once_int f z rest :
  number_stop rest = true ->
  scan_once (S f) (str_of_int z ++ rest) = Some (PInt z, rest).
Proof.
  intros Hstop. destruct (str_of_int_shape z) as [-> | (neg & c & ds & E & Hc & H48 & Hds & Hz)].
  - destruct (number_stop_spec rest Hstop) as (Hnd & Hfr & Hex).
    change (str_of_int 0 ++ rest) with (([] : pystr) ++ 48%N :: rest).
    rewrite (scan_once_number f false 48%N rest eq_refl).
    unfold match_number. simpl. rewrite Hfr, Hex. reflexivity.
  - rewrite E, <- app_assoc. cbn [app].
    rewrite (scan_once_number f neg c (ds ++ rest) Hc).
    rewrite (match_number_digits neg c ds rest Hc H48 Hds Hstop), <- Hz. reflexivity.
Qed.

(** ** Containers through [json] *)

Lemma skip_ws_starts_value s : starts_value s -> skip_ws s = s.
Proof. intros (c & tl & -> & Hws & _). simpl. rewrite Hws. reflexivity. Qed.

Lemma json_encode_starts v txt rest :
  json_encode v = Ok txt -> starts_value (txt ++ rest).
Proof.
  destruct v as [|[]|z|s|items|items|entries|cls]; simpl; intros H;
    try (injection H as <-; eexists _, _; split; [reflexivity | repeat split; reflexivity]);
    try discriminate.
  - injection H as <-.
    destruct (str_of_int_shape z) as [-> | (neg & c & ds & E & Hc & _)].
    + eexists _, _; split; [reflexivity | repeat split; reflexivity].
    + rewrite E. destruct neg.
      * eexists _, _; split; [reflexivity | repeat split; reflexivity].
      * unfold is_digit in Hc. apply andb_prop in Hc as [H1 H2].
        apply N.leb_le in H1. apply N.leb_le in H2.
        eexists _, _; split; [reflexivity|].
        unfold is_ws. repeat split;
          repeat match goal with |- context [(c =? ?k)%N] =>
                   destruct (N.eqb_spec c k); [lia|] end; reflexivity.
  - destruct (traverse json_encode items); [|discriminate]. injection H as <-.
    eexists _, _; split; [reflexivity | repeat split; reflexivity].
  - destruct (traverse json_encode items); [|discriminate]. injection H as <-.
    eexists _, _; split; [reflexivity | repeat split; reflexivity].
  - destruct (traverse _ entries); [|discriminate]. injection H as <-.
    eexists _, _; split; [reflexivity | repeat split; reflexivity].
Qed.

Lemma dict_set_fresh d k v :
  k ∉ map fst d -> dict_set d k v = d ++ [(k, v)].
Proof.
  induction d as [|[k' v'] d IH]; simpl; intros Hk; [reflexivity|].
  apply not_elem_of_cons in Hk as [Hne Hk].
  destruct (decide (k' = k)); [congruence|]. rewrite (IH Hk). reflexivity.
Qed.

Lemma dict_of_pairs_nodup pairs :
  NoDup (map fst pairs) -> dict_of_pairs pairs = pairs.
Proof.
  unfold dict_of_pairs. intros Hnd.
  enough (forall acc, NoDup (map fst (acc ++ pairs)) ->
            fold_left (fun d kv => dict_set d (fst kv) (snd kv)) pairs acc = acc ++ pairs)
    as H by exact (H [] Hnd).
  clear Hnd. induction pairs as [|[k v] pairs IH]; intros acc Hnd; simpl.
  - rewrite app_nil_r. reflexivity.
  - rewrite dict_set_fresh.
    + rewrite IH; rewrite <- app_assoc; [reflexivity | exact Hnd].
    + rewrite map_app in Hnd. apply NoDup_app in Hnd as (_ & Hdis & _).
      intros Hin. apply (Hdis k Hin). simpl. left.
Qed.

Lemma join_cons2 x y chunks :
  join sep (x :: y :: chunks) = x ++ 44%N :: 32%N :: join sep (y :: chunks).
Proof. reflexivity. Qed.

Lemma join_starts x chunks rest :
  (forall r, starts_value (x ++ r)) -> starts_value (join sep (x :: chunks) ++ rest).
Proof.
  intros Hx. destruct chunks as [|y chunks]; [apply Hx|].
  rewrite join_cons2, <- app_assoc. apply Hx.
Qed.

Lemma parse_array_items_encode f items :
  Forall (scans_back f) items ->
  forall chunks n rest,
    items <> [] ->
    traverse json_encode items = Ok chunks ->
    (length items <= n)%nat ->
    parse_array_items (scan_once f) n (join sep chunks ++ 93%N :: rest)
    = Some (items, rest).
Proof.
  induction 1 as [|v items Hv Hitems IH]; intros chunks n rest Hne Htr Hn; [done|].
  simpl in Htr. destruct (json_encode v) as [txt|] eqn:Ev; [|discriminate].
  destruct (traverse json_encode items) as [chunks'|] eqn:Etr; [|discriminate].
  injection Htr as <-.
  destruct n as [|n]; [simpl in Hn; lia|]. simpl in Hn.
  destruct items as [|v' items].
  - injection Etr as <-. cbn [join parse_array_items].
    rewrite (Hv txt (93%N :: rest) Ev eq_refl). reflexivity.
  - simpl in Etr. destruct (json_encode v') as [txt'|] eqn:Ev'; [|discriminate].
    destruct (traverse json_encode items) as [chunks''|] eqn:Etr'; [|discriminate].
    injection Etr as <-.
    rewrite join_cons2, <- app_assoc. cbn [parse_array_items app].
    rewrite (Hv txt _ Ev) by reflexivity. cbn [skip_ws is_ws N.eqb Pos.eqb orb].
    rewrite (skip_ws_starts_value _
               (join_starts txt' chunks'' _ (fun r => json_encode_starts v' txt' r Ev'))).

    rewrite (IH (txt' :: chunks'') n rest); [reflexivity | done | reflexivity | lia].
Qed.

Lemma encode_entry_starts kv chunk rest :
  encode_entry kv = Ok chunk -> starts_value (chunk ++ rest).
Proof.
  unfold encode_entry. destruct (json_encode (snd kv)); [|discriminate].
  intros [= <-]. eexists _, _; split; [reflexivity | repeat split; reflexivity].
Qed.

Lemma parse_object_pairs_encode f entries :
  Forall (fun kv => scans_back f (snd kv)) entries ->
  forall chunks n rest,
    entries <> [] ->
    traverse encode_entry entries = Ok chunks ->
    (length entries <= n)%nat ->
    parse_object_pairs (scan_once f) n (join sep chunks ++ 125%N :: rest)
    = Some (entries, rest).
Proof.
  induction 1 as [|[k v] entries Hv Hentries IH]; intros chunks n rest Hne Htr Hn; [done|].
  simpl in Htr. unfold encode_entry at 1 in Htr. simpl in Htr, Hv.
  destruct (json_encode v) as [txt|] eqn:Ev; [|discriminate].
  destruct (traverse encode_entry entries) as [chunks'|] eqn:Etr; [|discriminate].
  injection Htr as <-.
  destruct n as [|n]; [simpl in Hn; lia|]. simpl in Hn.
  assert (Hkey : forall tail,
            parse_object_pairs (scan_once f) (S n)
              ((encode_basestring k ++ lit ": " ++ txt) ++ tail)
            = match scan_once f (txt ++ tail) with
              | None => None
              | Some (v, s3) =>
                  match skip_ws s3 with
                  | c' :: s4 =>
                      if (c' =? 125)%N then Some ([(k, v)], s4)
                      else if (c' =? 44)%N
                           then cons_fst (k, v)
                                  (parse_object_pairs (scan_once f) n (skip_ws s4))
                           else None
                  | [] => None
                  end
              end).
  { intros tail. unfold encode_basestring.
    change (lit ": ") with [58%N; 32%N].
    cbn [app parse_object_pairs]. rewrite <- !app_assoc. cbn [N.eqb Pos.eqb negb app].
    rewrite scanstring_escaped. cbn [skip_ws is_ws N.eqb Pos.eqb orb negb].
    rewrite (skip_ws_starts_value _ (json_encode_starts v txt tail Ev)). reflexivity. }
  destruct entries as [|kv' entries].
  - injection Etr as <-. cbn [join]. rewrite Hkey.
    rewrite (Hv txt _ Ev) by reflexivity. reflexivity.
  - simpl in Etr. destruct (encode_entry kv') as [txt'|] eqn:Ev'; [|discriminate].
    destruct (traverse encode_entry entries) as [chunks''|] eqn:Etr'; [|discriminate].
    injection Etr as <-.
    rewrite join_cons2, <- app_assoc, Hkey. cbn [app].
    rewrite (Hv txt _ Ev) by reflexivity. cbn [skip_ws is_ws N.eqb Pos.eqb orb].
    rewrite (skip_ws_starts_value _
               (join_starts txt' chunks'' _ (fun r => encode_entry_starts kv' txt' r Ev'))).
    rewrite (IH (txt' :: chunks'') n rest); [reflexivity | done | reflexivity | lia].
Qed.

Lemma size_in_list_sum {A} (g : A -> nat) (x : A) (l : list A) :
  x ∈ l -> (g x <= list_sum (map g l))%nat.
Proof.
  induction 1 as [x l | x y l _ IH]; simpl; lia.
Qed.

Lemma length_le_list_sum_size {A} (g : A -> nat) (l : list A) :
  (forall x, 1 <= g x)%nat -> (length l <= list_sum (map g l))%nat.
Proof.
  intros Hg. induction l as [|x l IH]; simpl; [lia|]. specialize (Hg x). lia.
Qed.

Lemma size_pos v : (1 <= size v)%nat.
Proof. destruct v; simpl; lia. Qed.

Lemma scan_once_json_encode v :
  json_native v = true ->
  forall fuel, (size v <= fuel)%nat -> scans_back fuel v.
Proof.
  induction v as [|b|z|s|items IH|items IH|entries IH|cls] using pyval_ind;
    intros Hnat fuel Hfuel txt rest Henc Hstop; simpl in Hnat; try discriminate;
    (destruct fuel as [|f]; [pose proof (size_pos PNone); simpl in Hfuel; lia|]).
  - injection Henc as <-. reflexivity.
  - destruct b; injection Henc as <-; reflexivity.
  - injection Henc as <-. apply scan_once_int, Hstop.
  - injection Henc as <-. unfold encode_basestring.
    cbn [app scan_once N.eqb Pos.eqb]. rewrite <- app_assoc. cbn [app].
    rewrite scanstring_escaped. reflexivity.
  - cbn [json_encode size] in Henc, Hfuel.
    destruct (traverse json_encode items) as [chunks|] eqn:Etr; [|discriminate].
    assert (txt = 91%N :: join sep chunks ++ [93%N]) as ->
      by (injection Henc as <-; reflexivity).
    cbn [app scan_once N.eqb Pos.eqb]. rewrite <- app_assoc. cbn [app].
    destruct items as [|v items].
    + injection Etr as <-. reflexivity.
    + assert (Hall : Forall (scans_back f) (v :: items)).
      { apply Forall_forall. intros x Hx.
        rewrite Forall_forall in IH. apply (IH x Hx).
        - rewrite forallb_forall in Hnat. apply Hnat, list_elem_of_In, Hx.
        - pose proof (size_in_list_sum size x (v :: items) Hx). lia. }
      assert (Hstart : starts_value (join sep chunks ++ 93%N :: rest)).
      { simpl in Etr. destruct (json_encode v) as [t|] eqn:Ev; [|discriminate].
        destruct (traverse json_encode items); [|discriminate]. injection Etr as <-.
        apply join_starts. intros r. exact (json_encode_starts v t r Ev). }
      rewrite (skip_ws_starts_value _ Hstart).
      destruct Hstart as (c & tl & E & _ & H93 & _). rewrite E, H93, <- E.
      rewrite (parse_array_items_encode f (v :: items) Hall chunks f rest); [reflexivity|done|exact Etr|].
      pose proof (length_le_list_sum_size size (v :: items) size_pos). lia.
  - cbn [json_encode size] in Henc, Hfuel. apply andb_prop in Hnat as [Hnd Hnat].
    apply bool_decide_eq_true in Hnd.
    change (traverse _ entries) with (traverse encode_entry entries) in Henc.
    destruct (traverse encode_entry entries) as [chunks|] eqn:Etr; [|discriminate].
    assert (txt = 123%N :: join sep chunks ++ [125%N]) as ->
      by (injection Henc as <-; reflexivity).
    cbn [app scan_once N.eqb Pos.eqb]. rewrite <- app_assoc. cbn [app].
    destruct entries as [|kv entries].
    + injection Etr as <-. reflexivity.
    + assert (Hall : Forall (fun kv => scans_back f (snd kv)) (kv :: entries)).
      { apply Forall_forall. intros x Hx.
        rewrite Forall_forall in IH. apply (IH x Hx).
        - rewrite forallb_forall in Hnat. apply Hnat, list_elem_of_In, Hx.
        - pose proof (size_in_list_sum (fun kv => size (snd kv)) x (kv :: entries) Hx).
          simpl in *. lia. }
      assert (Hstart : starts_value (join sep chunks ++ 125%N :: rest)).
      { simpl in Etr. destruct (encode_entry kv) as [t|] eqn:Ev; [|discriminate].
        destruct (traverse encode_entry entries); [|discriminate]. injection Etr as <-.
        apply join_starts. intros r. exact (encode_entry_starts kv t r Ev). }
      rewrite (skip_ws_starts_value _ Hstart).
      destruct Hstart as (c & tl & E & _ & _ & H125). rewrite E, H125, <- E.
      rewrite (parse_object_pairs_encode f (kv :: entries) Hall chunks f rest);
        [rewrite (dict_of_pairs_nodup _ Hnd); reflexivity|done|exact Etr|].
      pose proof (length_le_list_sum_size (fun kv => size (snd kv)) (kv :: entries)
                    (fun kv => size_pos (snd kv))). lia.
Qed.

Lemma join_length chunks :
  (list_sum (map length chunks) <= length (join sep chunks))%nat.
Proof.
  induction chunks as [|x [|y chunks] IH]; [simpl; lia | simpl; lia |].
  rewrite join_cons2. cbn [map list_sum fold_right] in *. rewrite length_app. cbn [length]. lia.
Qed.

Lemma traverse_sum {A} (g : A -> result pystr) (sz : A -> nat) l :
  Forall (fun x => forall t, g x = Ok t -> (sz x <= length t)%nat) l ->
  forall chunks, traverse g l = Ok chunks ->
  (list_sum (map sz l) <= list_sum (map length chunks))%nat.
Proof.
  induction 1 as [|x l Hx _ IH]; intros chunks Htr; simpl in Htr.
  - injection Htr as <-. simpl. lia.
  - destruct (g x) as [t|] eqn:Ex; [|discriminate].
    destruct (traverse g l) as [ts|]; [|discriminate]. injection Htr as <-.
    simpl. specialize (Hx t eq_refl). specialize (IH ts eq_refl). lia.
Qed.

Lemma size_le_length v :
  forall txt, json_encode v = Ok txt -> (size v <= length txt)%nat.
Proof.
  induction v as [|b|z|s|items IH|items IH|entries IH|cls] using pyval_ind;
    intros txt Henc; cbn [json_encode size] in *; try discriminate.
  - injection Henc as <-. simpl. lia.
  - destruct b; injection Henc as <-; simpl; lia.
  - pose proof (json_encode_starts (PInt z) txt [] Henc) as (c & tl & E & _).
    rewrite app_nil_r in E. rewrite E. simpl. lia.
  - injection Henc as <-. simpl. lia.
  - destruct (traverse json_encode items) as [chunks|] eqn:Etr; [|discriminate].
    assert (txt = 91%N :: join sep chunks ++ [93%N]) as ->
      by (injection Henc as <-; reflexivity).
    pose proof (traverse_sum json_encode size items IH chunks Etr).
    pose proof (join_length chunks). simpl. rewrite length_app. simpl. lia.
  - destruct (traverse json_encode items) as [chunks|] eqn:Etr; [|discriminate].
    assert (txt = 91%N :: join sep chunks ++ [93%N]) as ->
      by (injection Henc as <-; reflexivity).
    pose proof (traverse_sum json_encode size items IH chunks Etr).
    pose proof (join_length chunks). simpl. rewrite length_app. simpl. lia.
  - change (traverse _ entries) with (traverse encode_entry entries) in Henc.
    destruct (traverse encode_entry entries) as [chunks|] eqn:Etr; [|discriminate].
    assert (txt = 123%N :: join sep chunks ++ [125%N]) as ->
      by (injection Henc as <-; reflexivity).
    assert (Hall : Forall (fun kv => forall t, encode_entry kv = Ok t ->
                             (size (snd kv) <= length t)%nat) entries).
    { eapply Forall_impl; [exact IH|]. intros kv Hkv t Ht. unfold encode_entry in Ht.
      destruct (json_encode (snd kv)) as [t'|] eqn:E'; [|discriminate].
      assert (t = encode_basestring (fst kv) ++ (lit ": " ++ t')) as ->
        by (injection Ht as <-; reflexivity).
      specialize (Hkv t' E'). rewrite !length_app. lia. }
    pose proof (traverse_sum encode_entry (fun kv => size (snd kv)) entries Hall chunks Etr).
    pose proof (join_length chunks). simpl. rewrite length_app. simpl. lia.
Qed.

Lemma json_encode_native v :
  json_native v = true -> exists txt, json_encode v = Ok txt.
Proof.
  induction v as [|b|z|s|items IH|items IH|entries IH|cls] using pyval_ind;
    intros Hnat; simpl in Hnat; try discriminate; cbn [json_encode]; eauto.
  - destruct b; eauto.
  - assert (exists chunks, traverse json_encode items = Ok chunks) as [chunks ->]; [|eauto].
    induction IH as [|v items Hv _ IHitems]; [simpl; eauto|].
    simpl in Hnat. apply andb_prop in Hnat as [H1 H2].
    destruct (Hv H1) as [t Ht]. destruct (IHitems H2) as [ts Hts].
    simpl. rewrite Ht, Hts. eauto.
  - apply andb_prop in Hnat as [_ Hnat].
    assert (exists chunks, traverse encode_entry entries = Ok chunks) as [chunks Hc].
    { induction IH as [|kv entries Hv _ IHentries]; [simpl; eauto|].
      simpl in Hnat. apply andb_prop in Hnat as [H1 H2].
      destruct (Hv H1) as [t Ht]. destruct (IHentries H2) as [ts Hts].
      simpl. unfold encode_entry at 1. rewrite Ht, Hts. eauto. }
    change (traverse _ entries) with (traverse encode_entry entries). rewrite Hc. eauto.
Qed.

Lemma json_loads_dumps v txt :
  json_native v = true -> json_dumps v = Ok txt -> json_loads txt = Some v.
Proof.
  unfold json_dumps, json_loads. intros Hnat Henc.
  pose proof (json_encode_starts v txt [] Henc) as Hstart. rewrite app_nil_r in Hstart.
  rewrite (skip_ws_starts_value _ Hstart).
  pose proof (scan_once_json_encode v Hnat (length txt) (size_le_length v txt Henc)
                txt [] Henc eq_refl) as Hscan.
  rewrite app_nil_r in Hscan. rewrite Hscan. reflexivity.
Qed.

(** ** [save_to_blob_storage]: failures *)



(** C6.  Without a connection string in the environment (the variable is
    unset or empty), [save_to_blob_storage] returns [False] at once: one
    error is logged, the storage SDK is not called and the account is as
    it was. *)
Theorem save_to_blob_storage_without_credential
    {builtins : Builtins} {Store : Type} {service : BlobService Store}
    (self : WikipediaDataExtractor) (article : pyval)
    (container_name : option pystr) (w : World Store) :
  environ w !! lit "AZURE_STORAGE_CONNECTION_STRING" = None
  \/ environ w !! lit "AZURE_STORAGE_CONNECTION_STRING" = Some [] ->
  let '(r, w') := save_to_blob_storage self article container_name w in
  r = Ok false
  /\ trace w' = trace w
  /\ store w' = store w
  /\ log w' = log w ++ [(ERROR, lit "Missing Azure Storage connection string")].
Proof.
  intros Hconn. unfold save_to_blob_storage, bind at 1 2.
  destruct container_name as [c|]; cbn [ret environ_get environ_get_default];
    destruct Hconn as [-> | ->]; cbn; auto.
Qed.

Lemma save_to_blob_storage_without_credential_witness :
  environ (fresh_world ∅) !! lit "AZURE_STORAGE_CONNECTION_STRING" = None
  /\ let '(r, w') :=
       save_to_blob_storage test_extractor sample_article_1 None (fresh_world ∅) in
     r = Ok false
     /\ trace w' = []
     /\ store w' = ∅
     /\ log w' = [(ERROR, lit "Missing Azure Storage connection string")].
Proof.
  split; [reflexivity|].
  apply (save_to_blob_storage_without_credential
           test_extractor sample_article_1 None (fresh_world ∅)).
  left. reflexivity.
Defined.

(** ** The name of the blob *)

Lemma replace_from_char (a b : N) (s : pystr) :
  replace_from [a] [b] O s = map (fun c => if (c =? a)%N then b else c) s.
Proof.
  induction s as [|c s IH]; [reflexivity|].
  cbn [replace_from starts_with map length Nat.sub app]. rewrite IH.
  rewrite N.eqb_sym. destruct (c =? a)%N; reflexivity.
Qed.

Lemma str_replace_space (s : pystr) :
  str_replace (lit " ") (lit "_") s = spaces_to_underscores s.
Proof. apply (replace_from_char 32 95 s). Qed.

Lemma blob_name_of_title {builtins : Builtins}
    (entries : list (pystr * pyval)) (title : pystr) :
  default (PStr (lit "untitled")) (dict_lookup entries (lit "title")) = PStr title ->
  blob_name (PDict entries)
  = Ok (format_value (default (PStr (lit "unknown")) (dict_lookup entries (lit "id")))
          ++ lit "-" ++ spaces_to_underscores title ++ lit ".json").
Proof.
  intros Htitle. unfold blob_name, py_get. cbn [rbind].
  rewrite Htitle. cbn [py_replace rbind]. rewrite str_replace_space. reflexivity.
Qed.

(** C3.  The blob name is [<id>-<title>.json], where [<id>] is the text of
    the [id] field or [unknown], and [<title>] is the [title] field or
    [untitled] with every space turned into an underscore: a name of that
    form is computed whenever the title is a string, and no other name is
    ever computed; two articles with the same [id] and [title] fields get
    the same name; the two articles of the specification get the names it
    gives. *)
Theorem blob_name_spec {builtins : Builtins} :
  (forall (entries : list (pystr * pyval)) (title : pystr),
      default (PStr (lit "untitled")) (dict_lookup entries (lit "title")) = PStr title ->
      blob_name (PDict entries)
      = Ok (format_value (default (PStr (lit "unknown")) (dict_lookup entries (lit "id")))
              ++ lit "-" ++ spaces_to_underscores title ++ lit ".json"))
  /\ (forall (entries : list (pystr * pyval)) (name : pystr),
         blob_name (PDict entries) = Ok name ->
         exists title,
           default (PStr (lit "untitled")) (dict_lookup entries (lit "title")) = PStr title
           /\ name = format_value (default (PStr (lit "unknown"))
                                           (dict_lookup entries (lit "id")))
                       ++ lit "-" ++ spaces_to_underscores title ++ lit ".json")
  /\ (forall entries entries' : list (pystr * pyval),
         dict_lookup entries (lit "id") = dict_lookup entries' (lit "id") ->
         dict_lookup entries (lit "title") = dict_lookup entries' (lit "title") ->
         blob_name (PDict entries) = blob_name (PDict entries'))
  /\ blob_name (PDict [(lit "id", PStr (lit "12345"));
                       (lit "title", PStr (lit "Sample Article 1"))])
     = Ok (lit "12345-Sample_Article_1.json")
  /\ blob_name (PDict []) = Ok (lit "unknown-untitled.json").
Proof.
  split; [|split; [|split; [|split; reflexivity]]].
  - apply @blob_name_of_title.
  - intros entries name Hname.
    destruct (default (PStr (lit "untitled")) (dict_lookup entries (lit "title")))
      as [| | |title| | | |] eqn:Htitle;
      try (unfold blob_name, py_get in Hname; cbn [rbind] in Hname;
           rewrite Htitle in Hname; discriminate).
    exists title. split; [reflexivity|].
    rewrite (blob_name_of_title entries title Htitle) in Hname.
    injection Hname as <-. reflexivity.
  - intros entries entries' Hid Htitle. unfold blob_name, py_get. cbn [rbind].
    rewrite Hid, Htitle. reflexivity.
Qed.

Lemma blob_name_spec_witness :
  default (PStr (lit "untitled"))
          (dict_lookup [(lit "id", PInt 7); (lit "title", PStr (lit "A B C"))] (lit "title"))
  = PStr (lit "A B C")
  /\ blob_name (PDict [(lit "id", PInt 7); (lit "title", PStr (lit "A B C"))])
     = Ok (lit "7-A_B_C.json").
Proof.
  split; [reflexivity|].
  apply (proj1 blob_name_spec [(lit "id", PInt 7); (lit "title", PStr (lit "A B C"))]
               (lit "A B C")).
  reflexivity.
Defined.

(** ** [extract_metadata] *)


(** ** [load_wikipedia_subset] *)

Lemma select_range_prefix (rows : list pyval) (n : Z) :
  0 < n -> n <= Z.of_nat (length rows) ->
  select_range rows n = Ok (take (Z.to_nat n) rows).
Proof.
  intros Hpos Hle. unfold select_range, check_valid_indices_value.
  destruct (Z.eqb_spec (Z.of_nat (length rows)) 0) as [E | _]; [lia|].
  destruct (Z.leb_spec 0 n); [|lia].
  destruct (Z.ltb_spec 0 0); [lia|].
  destruct (Z.leb_spec (Z.of_nat (length rows)) 0); [lia|].
  destruct (Z.ltb_spec (0 + n - 1) 0); [lia|].
  destruct (Z.leb_spec (Z.of_nat (length rows)) (0 + n - 1)); [lia|].
  reflexivity.
Qed.

(** C5.  When the hub serves at least [n] rows and [n] is positive (given
    as the argument, or taken from the configuration when the argument is
    [None]), [load_wikipedia_subset] returns the first [n] rows in the
    order of the hub, and they are [n]. *)
Theorem load_wikipedia_subset_prefix {hub : DatasetSource} {Store : Type}
    (self : WikipediaDataExtractor) (sample_size_arg : option Z)
    (rows : list pyval) (w : World Store) :
  let n := default (sample_size self) sample_size_arg in
  load_dataset (dataset_name self) (subset self) (lit "train") = Ok rows ->
  0 < n ->
  n <= Z.of_nat (length rows) ->
  fst (load_wikipedia_subset self sample_size_arg w) = Ok (take (Z.to_nat n) rows)
  /\ Z.of_nat (length (take (Z.to_nat n) rows)) = n.
Proof.
  intros n Hload Hpos Hle. split.
  - unfold load_wikipedia_subset, try_except, bind, lift, logger, ret.
    cbn [fst snd]. rewrite Hload. fold n. rewrite (select_range_prefix rows n Hpos Hle).
    reflexivity.
  - rewrite length_take. lia.
Qed.

Lemma load_wikipedia_subset_prefix_witness :
  load_dataset (DatasetSource := fixed_source sample_data)
    (dataset_name test_extractor) (subset test_extractor) (lit "train") = Ok sample_data
  /\ fst (load_wikipedia_subset (hub := fixed_source sample_data) (Store := MemStore)
            test_extractor (Some 1) (fresh_world ∅))
     = Ok [sample_article_1].
Proof.
  split; [reflexivity|].
  apply (load_wikipedia_subset_prefix (hub := fixed_source sample_data)
           test_extractor (Some 1) sample_data (fresh_world ∅)); [reflexivity | cbn; lia | cbn; lia].
Defined.

(** C8.  An exception of the hub, an exception of the selection and an
    exception of the field access in [extract_metadata] reach the caller
    as they were raised, after one error line in the log.  Neither method
    turns an exception into a value: [load_wikipedia_subset] returns rows
    only when the hub and the selection have both returned, and
    [extract_metadata] returns a record only for a mapping. *)
Theorem load_and_extract_reraise {hub : DatasetSource} {Store : Type}
    (self : WikipediaDataExtractor) (w : World Store) (e : exn) :
  (forall sample_size_arg,
      load_dataset (dataset_name self) (subset self) (lit "train") = Raise e ->
      let '(r, w') := load_wikipedia_subset self sample_size_arg w in
      r = Raise e
      /\ last (log w') = Some (ERROR, lit "Error loading Wikipedia dataset: " ++ exn_text e))
  /\ (forall sample_size_arg rows,
         load_dataset (dataset_name self) (subset self) (lit "train") = Ok rows ->
         select_range rows (default (sample_size self) sample_size_arg) = Raise e ->
         let '(r, w') := load_wikipedia_subset self sample_size_arg w in
         r = Raise e
         /\ last (log w') = Some (ERROR, lit "Error loading Wikipedia dataset: " ++ exn_text e))
  /\ (forall article,
         py_get article "id" (PStr []) = Raise e ->
         let '(r, w') := extract_metadata self article w in
         r = Raise e
         /\ last (log w') = Some (ERROR, lit "Error extracting metadata: " ++ exn_text e))
  /\ (forall sample_size_arg articles,
         fst (load_wikipedia_subset self sample_size_arg w) = Ok articles ->
         exists rows,
           load_dataset (dataset_name self) (subset self) (lit "train") = Ok rows
           /\ select_range rows (default (sample_size self) sample_size_arg) = Ok articles)
  /\ (forall article metadata,
         fst (extract_metadata self article w) = Ok metadata ->
         exists entries, article = PDict entries).
Proof.
  split; [|split; [|split; [|split]]].
  - intros arg Hload.
    unfold load_wikipedia_subset, try_except, bind, lift, logger, ret, raise.
    cbn [fst snd]. rewrite Hload. cbn [log with_log].
    split; [reflexivity | apply last_snoc].
  - intros arg rows Hload Hsel.
    unfold load_wikipedia_subset, try_except, bind, lift, logger, ret, raise.
    cbn [fst snd]. rewrite Hload, Hsel. cbn [log with_log].
    split; [reflexivity | apply last_snoc].
  - intros article Hget.
    unfold extract_metadata, try_except, bind, lift, logger, ret, raise.
    rewrite Hget. cbn [log with_log].
    split; [reflexivity | apply last_snoc].
  - intros arg articles.
    unfold load_wikipedia_subset, try_except, bind, lift, logger, ret, raise.
    cbn [fst snd].
    destruct (load_dataset _ _ _) as [rows | e1]; [|discriminate].
    destruct (select_range rows _) as [sampled | e2] eqn:Hsel; [|discriminate].
    cbn [fst]. intros [= <-]. exists rows. split; [reflexivity | exact Hsel].
  - intros article metadata.
    destruct article as [| | | | | |entries|]; try discriminate. eauto.
Qed.

Lemma load_and_extract_reraise_witness :
  py_get (PList []) "id" (PStr []) = Raise (AttributeError (PList []) "get")
  /\ fst (extract_metadata (Store := MemStore) test_extractor (PList []) (fresh_world ∅))
     = Raise (AttributeError (PList []) "get").
Proof.
  split; [reflexivity|].
  pose proof (proj1 (proj2 (proj2 (load_and_extract_reraise
                              (hub := fixed_source []) (Store := MemStore)
                              test_extractor (fresh_world ∅)
                              (AttributeError (PList []) "get"))))
                    (PList []) eq_refl) as Hw.
  destruct (extract_metadata test_extractor (PList []) (fresh_world ∅)) as [r w'].
  exact (proj1 Hw).
Defined.

(** What only a mapping passes: every other value raises at the first
    field access. *)
Lemma py_get_not_mapping (article : pyval) (key : string) (dflt : pyval) :
  (forall entries, article <> PDict entries) ->
  py_get article key dflt = Raise (AttributeError article "get").
Proof.
  intros Hnot. destruct article; try reflexivity. destruct (Hnot entries eq_refl).
Qed.

(** ** The sample size against the size of the dataset *)

Lemma select_range_out_of_range (rows : list pyval) (n : Z) :
  rows <> [] -> Z.of_nat (length rows) < n ->
  select_range rows n
  = Raise (IndexError (lit "Index " ++ str_of_int (n - 1)
                           ++ lit " out of range for dataset of size "
                           ++ str_of_int (Z.of_nat (length rows)) ++ lit ".")).
Proof.
  intros Hne Hlt. unfold select_range, check_valid_indices_value.
  destruct rows as [|row rows]; [done|].
  destruct (Z.eqb_spec (Z.of_nat (length (row :: rows))) 0) as [E | _];
    [simpl in E; lia|].
  destruct (Z.leb_spec 0 n); [|lia].
  destruct (Z.ltb_spec 0 0); [lia|].
  destruct (Z.leb_spec (Z.of_nat (length (row :: rows))) 0); [simpl in *; lia|].
  destruct (Z.ltb_spec (0 + n - 1) 0); [lia|].
  destruct (Z.leb_spec (Z.of_nat (length (row :: rows))) (0 + n - 1)); [|lia].
  reflexivity.
Qed.

(** C10 as it stands fails on an empty dataset: [select] hands the empty
    dataset back, and the caller gets an empty list, not an exception. *)
Lemma load_wikipedia_subset_empty_dataset :
  fst (load_wikipedia_subset (hub := fixed_source []) (Store := MemStore)
         test_extractor (Some 5) (fresh_world ∅))
  = Ok [].
Proof. reflexivity. Qed.

(** C10, amended.  When the dataset is not empty and has fewer rows than
    the sample size, the selection raises [IndexError] and
    [load_wikipedia_subset] raises it to the caller, after logging it. *)
Theorem load_wikipedia_subset_out_of_range {hub : DatasetSource} {Store : Type}
    (self : WikipediaDataExtractor) (sample_size_arg : option Z)
    (rows : list pyval) (w : World Store) :
  let n := default (sample_size self) sample_size_arg in
  load_dataset (dataset_name self) (subset self) (lit "train") = Ok rows ->
  rows <> [] ->
  Z.of_nat (length rows) < n ->
  let '(r, w') := load_wikipedia_subset self sample_size_arg w in
  exists e,
    r = Raise e
    /\ exn_class e = lit "IndexError"
    /\ exn_text e = lit "Index " ++ str_of_int (n - 1)
                        ++ lit " out of range for dataset of size "
                        ++ str_of_int (Z.of_nat (length rows)) ++ lit "."
    /\ last (log w') = Some (ERROR, lit "Error loading Wikipedia dataset: " ++ exn_text e).
Proof.
  intros n Hload Hne Hlt.
  pose proof (select_range_out_of_range rows n Hne Hlt) as Hsel.
  unfold load_wikipedia_subset, try_except, bind, lift, logger, ret, raise.
  cbn [fst snd]. rewrite Hload. fold n. rewrite Hsel. cbn [log with_log].
  eexists. split; [reflexivity|]. split; [reflexivity|]. split; [reflexivity|].
  apply last_snoc.
Qed.

Lemma load_wikipedia_subset_out_of_range_witness :
  sample_data <> [] /\ Z.of_nat (length sample_data) < 3
  /\ fst (load_wikipedia_subset (hub := fixed_source sample_data) (Store := MemStore)
            test_extractor (Some 3) (fresh_world ∅))
     = Raise (IndexError (lit "Index 2 out of range for dataset of size 2.")).
Proof.
  split; [discriminate|]. split; [cbn; lia|].
  pose proof (load_wikipedia_subset_out_of_range (hub := fixed_source sample_data)
                test_extractor (Some 3) sample_data (fresh_world ∅)
                eq_refl ltac:(discriminate) ltac:(cbn; lia)) as Hw.
  destruct (load_wikipedia_subset test_extractor (Some 3) (fresh_world ∅)) as [r w'].
  destruct Hw as (e & -> & Hclass & Htext & _).
  destruct e as [cls text]. simpl in Hclass, Htext. subst. reflexivity.
Defined.

(** ** The trace of storage calls only grows *)








Lemma try_except_bind {Store A B : Type} (m : M Store A) (k : A -> M Store B)
    (h : exn -> M Store B) (w : World Store) :
  try_except (bind m k) h w
  = match m w with
    | (Ok a, w') => try_except (k a) h w'
    | (Raise e, w') => h e w'
    end.
Proof. unfold try_except, bind. destruct (m w) as [[a | e] w']; reflexivity. Qed.

Section SaveTrace.
Context {builtins : Builtins} {Store : Type} {service : BlobService Store}.

Lemma save_to_blob_storage_connected (self : WikipediaDataExtractor)
    (article : pyval) (container_name : option pystr) (w : World Store)
    (conn : pystr) :
  environ w !! lit "AZURE_STORAGE_CONNECTION_STRING" = Some conn ->
  conn <> [] ->
  save_to_blob_storage self article container_name w
  = try_except (save_body conn (container_at_call container_name w) article)
      save_handler w.
Proof.
  intros Hconn Hne.
  unfold save_to_blob_storage, bind at 1 2, container_at_call.
  destruct container_name as [c|]; cbn [ret environ_get environ_get_default default];
    rewrite Hconn; destruct conn; [done | reflexivity | done | reflexivity].
Qed.


End SaveTrace.

(** ** The payload of an upload *)


Section SaveRoundTrip.
Context {builtins : Builtins} {Store : Type} {service : BlobService Store}.


Ltac step E :=
  rewrite try_except_bind in E; unfold sdk at 1 in E;
  cbn [store environ utcnow log trace] in E.

End SaveRoundTrip.




(** ** Two articles, one blob *)

(** C9.  The articles [{id: 1, title: A B}] and [{id: 1, title: A_B}]
    differ and have the same blob name.  Saved one after the other into
    an empty account, both calls return [True]; the second upload is made
    with overwrite, and the container then holds one blob, the second
    article, and nothing of the first. *)
Theorem blob_name_not_injective {builtins : Builtins} :
  let first := PDict [(lit "id", PStr (lit "1")); (lit "title", PStr (lit "A B"))] in
  let second := PDict [(lit "id", PStr (lit "1")); (lit "title", PStr (lit "A_B"))] in
  let w0 := fresh_world configured_env in
  let run1 := save_to_blob_storage test_extractor first None w0 in
  let run2 := save_to_blob_storage test_extractor second None (snd run1) in
  first <> second
  /\ blob_name first = Ok (lit "1-A_B.json")
  /\ blob_name second = Ok (lit "1-A_B.json")
  /\ fst run1 = Ok true
  /\ fst run2 = Ok true
  /\ (exists data1 data2,
         json_dumps first = Ok data1 /\ json_dumps second = Ok data2 /\ data1 <> data2
         /\ store (snd run1) = {[ lit "wikipedia-raw" := {[ lit "1-A_B.json" := data1 ]} ]}
         /\ last (trace (snd run2))
            = Some (Event (UploadBlob (lit "wikipedia-raw") (lit "1-A_B.json") data2 true)
                          true)
         /\ store (snd run2) = {[ lit "wikipedia-raw" := {[ lit "1-A_B.json" := data2 ]} ]}).
Proof.
  cbv zeta. split; [discriminate|]. split; [reflexivity|]. split; [reflexivity|].
  split; [reflexivity|]. split; [reflexivity|].
  eexists _, _. split; [reflexivity|]. split; [reflexivity|]. split; [discriminate|].
  split; [|split].
  - vm_compute. reflexivity.
  - reflexivity.
  - vm_compute. reflexivity.
Qed.

(** ** When the configuration is read *)




(** * Further properties *)

(** ** Every run of [save_to_blob_storage] *)

Section SavePaths.
Context {builtins : Builtins} {Store : Type} {service : BlobService Store}.

Ltac step E :=
  rewrite try_except_bind in E; unfold sdk at 1 in E;
  cbn [store environ utcnow log trace] in E.

Ltac finish E :=
  cbv beta iota zeta delta [try_except save_handler bind logger ret with_log] in E;
  cbn [store environ utcnow log trace] in E;
  injection E as <- <-; cbn [trace log environ utcnow];
  rewrite <- ?app_assoc; cbn [app].

Lemma save_tail_run (container : pystr) (article : pyval) (w : World Store)
    (r : result bool) (w' : World Store) :
  try_except
    (bind (lift (blob_name article)) (fun name =>
     bind (sdk (GetBlobClient container name) (get_blob_client container name)) (fun _ =>
     bind (lift (json_dumps article)) (fun article_json =>
     bind (sdk (UploadBlob container name article_json true)
               (upload_blob container name article_json true)) (fun _ =>
     bind (logger INFO (lit "Successfully uploaded article to " ++ name)) (fun _ =>
     ret true))))))
    save_handler w = (r, w') ->
  exists calls lines,
    save_tail container article r calls lines
    /\ trace w' = trace w ++ calls /\ log w' = log w ++ lines
    /\ environ w' = environ w /\ utcnow w' = utcnow w.
Proof.
  intros E. rewrite try_except_bind in E. unfold lift at 1 in E.
  destruct (blob_name article) as [name | e] eqn:Hname.
  - step E. destruct (get_blob_client container name (store w)) as [[[] | e] s1];
      cbn [is_ok] in E.
    + rewrite try_except_bind in E. unfold lift at 1 in E.
      destruct (json_dumps article) as [data | e] eqn:Hdata.
      * step E. destruct (upload_blob container name data true s1) as [[[] | e] s2];
          cbn [is_ok] in E.
        -- finish E. eexists _, _. split; [|repeat split; reflexivity].
           apply (tail_uploaded container article name data Hname Hdata).
        -- finish E. eexists _, _. split; [|repeat split; reflexivity].
           apply (tail_upload_raises container article name data e Hname Hdata).
      * finish E. eexists _, _. split; [|repeat split; reflexivity].
        apply (tail_dumps_raises container article name e Hname Hdata).
    + finish E. eexists _, _. split; [|repeat split; reflexivity].
      apply (tail_blob_client_raises container article name e Hname).
  - finish E. exists [], [failure_line e].
    split; [|rewrite app_nil_r; repeat split; reflexivity].
    apply (tail_name_raises container article e Hname).
Qed.

Lemma save_tail_no_create {b : Builtins} container article r calls lines ok :
  save_tail container article r calls lines ->
  ~ In (Event (CreateContainer container) ok) calls.
Proof.
  intros Htail Hin. destruct Htail; simpl in Hin; intuition discriminate.
Qed.

Lemma save_body_run (conn container : pystr) (article : pyval) (w : World Store)
    (r : result bool) (w' : World Store) :
  try_except (save_body conn container article) save_handler w = (r, w') ->
  exists calls lines,
    save_path conn container article r calls lines
    /\ trace w' = trace w ++ calls /\ log w' = log w ++ lines
    /\ environ w' = environ w /\ utcnow w' = utcnow w
    /\ (forall ok, In (Event (CreateContainer container) ok) calls ->
        exists s, fst (container_exists container s) = Ok false).
Proof.
  intros E. unfold save_body in E. step E.
  destruct (from_connection_string conn (store w)) as [[[] | e] s1]; cbn [is_ok] in E;
    [|finish E; eexists _, _; split; [apply (path_connect_raises _ _ _ e)|];
      repeat split; try reflexivity; intros ok Hin; simpl in Hin; intuition discriminate].
  step E. destruct (get_container_client container s1) as [[[] | e] s2]; cbn [is_ok] in E;
    [|finish E; eexists _, _; split; [apply (path_client_raises _ _ _ e)|];
      repeat split; try reflexivity; intros ok Hin; simpl in Hin; intuition discriminate].
  step E. destruct (container_exists container s2) as [[present | e] s3] eqn:Hex;
    cbn [is_ok] in E;
    [|finish E; eexists _, _; split; [apply (path_exists_raises _ _ _ e)|];
      repeat split; try reflexivity; intros ok Hin; simpl in Hin; intuition discriminate].
  rewrite try_except_bind in E. destruct present.
  - cbn [ret] in E.
    destruct (save_tail_run container article _ r w' E)
      as (calls & lines & Htail & Htrace & Hlog & Henv & Hnow).
    cbn [trace log environ utcnow] in *.
    eexists _, lines. split; [apply (path_container_present _ _ _ r calls lines Htail)|].
    rewrite Htrace, <- !app_assoc. repeat split; try assumption.
    intros ok Hin. exfalso. simpl in Hin.
    destruct Hin as [[=] | [[=] | [[=] | Hin]]].
    exact (save_tail_no_create _ _ _ _ _ ok Htail Hin).
  - assert (Hmissing : exists s, fst (container_exists container s) = Ok false)
      by (exists s2; rewrite Hex; reflexivity).
    unfold bind at 1, logger at 1, sdk at 1 in E.
    cbn [store environ utcnow log trace with_log] in E.
    destruct (create_container container s3) as [[[] | e] s4]; cbn [is_ok] in E;
      [|finish E; eexists _, _; split; [apply (path_create_raises _ _ _ e)|];
        repeat split; try reflexivity; intros; exact Hmissing].
    destruct (save_tail_run container article _ r w' E)
      as (calls & lines & Htail & Htrace & Hlog & Henv & Hnow).
    cbn [trace log environ utcnow] in *.
    eexists _, _. split; [apply (path_container_created _ _ _ r calls lines Htail)|].
    rewrite Htrace, Hlog, <- !app_assoc. repeat split; try assumption.
    intros; exact Hmissing.
Qed.

(** Every run of [save_to_blob_storage] with a connection string follows
    one of the paths; the environment and the clock are left alone, and
    the container is created only after the service has reported it
    missing. *)
Lemma save_to_blob_storage_run (self : WikipediaDataExtractor) (article : pyval)
    (container_name : option pystr) (w : World Store) (conn : pystr)
    (r : result bool) (w' : World Store) :
  environ w !! lit "AZURE_STORAGE_CONNECTION_STRING" = Some conn ->
  conn <> [] ->
  save_to_blob_storage self article container_name w = (r, w') ->
  save_path conn (container_at_call container_name w) article r
    (calls_since w w') (lines_since w w')
  /\ environ w' = environ w /\ utcnow w' = utcnow w
  /\ (forall ok,
        In (Event (CreateContainer (container_at_call container_name w)) ok)
           (calls_since w w') ->
        exists s, fst (container_exists (container_at_call container_name w) s) = Ok false).
Proof.
  intros Hconn Hne E.
  rewrite (save_to_blob_storage_connected self article container_name w conn Hconn Hne) in E.
  destruct (save_body_run conn _ article w r w' E)
    as (calls & lines & Hpath & Htrace & Hlog & Henv & Hnow & Hcreate).
  unfold calls_since, lines_since. rewrite Htrace, Hlog, !drop_app_length. auto.
Qed.

(** Without a connection string there is one path: no call, one line. *)
Lemma save_to_blob_storage_run_unconfigured (self : WikipediaDataExtractor)
    (article : pyval) (container_name : option pystr) (w : World Store)
    (r : result bool) (w' : World Store) :
  environ w !! lit "AZURE_STORAGE_CONNECTION_STRING" = None
  \/ environ w !! lit "AZURE_STORAGE_CONNECTION_STRING" = Some [] ->
  save_to_blob_storage self article container_name w = (r, w') ->
  r = Ok false /\ calls_since w w' = []
  /\ lines_since w w' = [(ERROR, lit "Missing Azure Storage connection string")]
  /\ environ w' = environ w /\ utcnow w' = utcnow w /\ store w' = store w.
Proof.
  intros Hconn E. unfold save_to_blob_storage, bind at 1 2 in E.
  unfold calls_since, lines_since.
  destruct container_name as [c|]; cbn [ret environ_get environ_get_default] in E;
    destruct Hconn as [Hc | Hc]; rewrite Hc in E;
    cbv beta iota zeta delta [bind logger ret with_log] in E;
    injection E as <- <-; cbn [trace log environ utcnow store];
    rewrite drop_all, drop_app_length; auto 10.
Qed.

(** The two kinds of run. *)
Lemma save_to_blob_storage_runs (self : WikipediaDataExtractor) (article : pyval)
    (container_name : option pystr) (w : World Store)
    (r : result bool) (w' : World Store) :
  save_to_blob_storage self article container_name w = (r, w') ->
  (r = Ok false /\ calls_since w w' = []
   /\ lines_since w w' = [(ERROR, lit "Missing Azure Storage connection string")])
  \/ (exists conn,
        environ w !! lit "AZURE_STORAGE_CONNECTION_STRING" = Some conn /\ conn <> []
        /\ save_path conn (container_at_call container_name w) article r
             (calls_since w w') (lines_since w w')).
Proof.
  intros E.
  destruct (environ w !! lit "AZURE_STORAGE_CONNECTION_STRING") as [[|ch conn]|] eqn:Hconn.
  - left. destruct (save_to_blob_storage_run_unconfigured self article container_name
                      w r w' (or_intror Hconn) E) as (? & ? & ? & _). auto.
  - right. exists (ch :: conn). split; [reflexivity|]. split; [discriminate|].
    apply (save_to_blob_storage_run self article container_name w (ch :: conn) r w'
             Hconn ltac:(discriminate) E).
  - left. destruct (save_to_blob_storage_run_unconfigured self article container_name
                      w r w' (or_introl Hconn) E) as (? & ? & ? & _). auto.
Qed.
End SavePaths.

(** ** What a run of [save_to_blob_storage] does and never does *)

Section SaveProperties.
Context {builtins : Builtins} {Store : Type} {service : BlobService Store}.
Implicit Types (self : WikipediaDataExtractor) (article : pyval)
               (container_name : option pystr) (w : World Store).

Lemma save_to_blob_storage_cases self article container_name w :
  (fst (save_to_blob_storage self article container_name w) = Ok false
   /\ calls_since w (snd (save_to_blob_storage self article container_name w)) = []
   /\ lines_since w (snd (save_to_blob_storage self article container_name w))
      = [(ERROR, lit "Missing Azure Storage connection string")]
   /\ (environ w !! lit "AZURE_STORAGE_CONNECTION_STRING" = None
       \/ environ w !! lit "AZURE_STORAGE_CONNECTION_STRING" = Some []))
  \/ (exists conn,
        environ w !! lit "AZURE_STORAGE_CONNECTION_STRING" = Some conn /\ conn <> []
        /\ save_path conn (container_at_call container_name w) article
             (fst (save_to_blob_storage self article container_name w))
             (calls_since w (snd (save_to_blob_storage self article container_name w)))
             (lines_since w (snd (save_to_blob_storage self article container_name w)))).
Proof.
  pose proof (surjective_pairing (save_to_blob_storage self article container_name w)) as E.
  destruct (environ w !! lit "AZURE_STORAGE_CONNECTION_STRING") as [[|ch conn]|] eqn:Hconn.
  - left. destruct (save_to_blob_storage_run_unconfigured self article container_name
                      w _ _ (or_intror Hconn) E) as (? & ? & ? & _). auto.
  - right. exists (ch :: conn). split; [reflexivity|]. split; [discriminate|].
    apply (save_to_blob_storage_run self article container_name w (ch :: conn) _ _
             Hconn ltac:(discriminate) E).
  - left. destruct (save_to_blob_storage_run_unconfigured self article container_name
                      w _ _ (or_introl Hconn) E) as (? & ? & ? & _). auto.
Qed.

Ltac run_cases self article container_name w :=
  destruct (save_to_blob_storage_cases self article container_name w)
    as [(Hr & Hcalls & Hlines & Hnone) | (conn & Hconn & Hne & Hpath)].

Ltac path_cases Hpath :=
  inversion Hpath as [e Hr Hcalls Hlines | e Hr Hcalls Hlines | e Hr Hcalls Hlines
                     | e Hr Hcalls Hlines
                     | r0 calls0 lines0 Htail Hr Hcalls Hlines
                     | r0 calls0 lines0 Htail Hr Hcalls Hlines];
  try (inversion Htail as [e Hname Hr0 Hcalls0 Hlines0
                          | name e Hname Hr0 Hcalls0 Hlines0
                          | name e Hname Hdata Hr0 Hcalls0 Hlines0
                          | name data e Hname Hdata Hr0 Hcalls0 Hlines0
                          | name data Hname Hdata Hr0 Hcalls0 Hlines0];
       subst r0 calls0 lines0).

(** X1.  The storage calls of a run are an initial segment of: connect,
    container client, exists, create, blob client, upload, where create
    may be left out.  No call is made twice and none out of order. *)
Theorem save_to_blob_storage_call_order self article container_name w :
  let calls := calls_since w (snd (save_to_blob_storage self article container_name w)) in
  let kinds := map (fun ev => kind_of (call ev)) calls in
  kinds `prefix_of` [Connect; ContainerClient; Exists; Create; BlobClient; Upload]
  \/ kinds `prefix_of` [Connect; ContainerClient; Exists; BlobClient; Upload].
Proof.
  cbv zeta. run_cases self article container_name w.
  - rewrite Hcalls. left. eexists. reflexivity.
  - path_cases Hpath;
      first [ left; eexists; reflexivity | right; eexists; reflexivity ].
Qed.

(** X2.  Every storage call of a run addresses the connection string and
    the container of the moment of the call; a blob is only ever named by
    the blob name of the article, and the only thing uploaded is the
    [json.dumps] text of the article, with overwrite. *)
Theorem save_to_blob_storage_calls_on_target self article container_name w :
  Forall (fun ev =>
            call_on_target (environ w !! lit "AZURE_STORAGE_CONNECTION_STRING")
              (container_at_call container_name w) article (call ev))
         (calls_since w (snd (save_to_blob_storage self article container_name w))).
Proof.
  run_cases self article container_name w.
  - rewrite Hcalls. constructor.
  - rewrite Hconn. path_cases Hpath; repeat constructor; simpl; auto.
Qed.

(** X3.  A storage call that raises is the last one of the run: every
    call before the last has returned. *)
Theorem save_to_blob_storage_stops_at_failure self article container_name w :
  Forall (fun ev => returned ev = true)
         (removelast (calls_since w (snd (save_to_blob_storage self article
                                            container_name w)))).
Proof.
  run_cases self article container_name w.
  - rewrite Hcalls. constructor.
  - path_cases Hpath; simpl; repeat constructor.
Qed.

(** X4.  The result is always a boolean, and it is [True] exactly when the
    run ends with an upload that returned. *)
Theorem save_to_blob_storage_true_iff_uploaded self article container_name w :
  let run := save_to_blob_storage self article container_name w in
  fst run = Ok (ends_with_upload (calls_since w (snd run))).
Proof.
  cbv zeta. run_cases self article container_name w.
  - rewrite Hr, Hcalls. reflexivity.
  - path_cases Hpath; reflexivity.
Qed.

(** X5.  Every run says in the log how it ended: the last line written is
    the success line with the blob name when [True] is returned, and an
    error line when [False] is returned.  A run writes one or two lines,
    and changes neither the environment nor the clock. *)
Theorem save_to_blob_storage_logs_outcome self article container_name w :
  let run := save_to_blob_storage self article container_name w in
  let lines := lines_since w (snd run) in
  match fst run with
  | Ok true =>
      exists name, blob_name article = Ok name /\ last lines = Some (uploaded_line name)
  | Ok false => exists text, last lines = Some (ERROR, text)
  | Raise _ => False
  end
  /\ (1 <= length lines <= 2)%nat
  /\ log (snd run) = log w ++ lines
  /\ environ (snd run) = environ w
  /\ utcnow (snd run) = utcnow w.
Proof.
  cbv zeta.
  pose proof (surjective_pairing (save_to_blob_storage self article container_name w)) as E.
  destruct (environ w !! lit "AZURE_STORAGE_CONNECTION_STRING") as [[|ch conn]|] eqn:Hconn.
  2: { revert E.
       rewrite (save_to_blob_storage_connected self article container_name w (ch :: conn)
                  Hconn ltac:(discriminate)).
       intros E.
       destruct (save_body_run _ _ article w _ _ E)
         as (calls & lines & Hpath & Htrace & Hlog & Henv & Hnow & _).
       unfold lines_since. rewrite Hlog, drop_app_length.
       split; [|split; [|auto]].
       - path_cases Hpath; rewrite <- ?Hr, <- ?Hr0; simpl; eauto.
       - path_cases Hpath; simpl; lia. }
  all: clear E; unfold save_to_blob_storage, lines_since;
    destruct container_name as [c|];
    cbv beta iota zeta delta [bind ret environ_get environ_get_default];
    rewrite Hconn; cbv beta iota zeta delta [bind logger ret with_log];
    cbn [fst snd log environ utcnow]; rewrite drop_app_length;
    (split; [eauto|]); (split; [simpl; lia|]); auto.
Qed.

(** X7.  An article without a blob name (not a mapping, or with a [title]
    that is not a string) is never given to the blob client nor uploaded,
    and an article that [json] cannot serialise is never uploaded: in both
    cases the result is [False], whatever the service does. *)
Theorem save_to_blob_storage_needs_name_and_payload self article container_name w :
  let run := save_to_blob_storage self article container_name w in
  let calls := calls_since w (snd run) in
  match blob_name article, json_dumps article with
  | Ok _, Ok _ => True
  | Ok _, Raise _ =>
      fst run = Ok false /\ Forall (fun ev => kind_of (call ev) <> Upload) calls
  | Raise _, _ =>
      fst run = Ok false
      /\ Forall (fun ev => kind_of (call ev) <> BlobClient /\ kind_of (call ev) <> Upload)
                calls
  end.
Proof.
  cbv zeta. run_cases self article container_name w.
  - rewrite Hr, Hcalls.
    destruct (blob_name article); [destruct (json_dumps article)|]; auto.
  - path_cases Hpath; rewrite ?Hname, ?Hdata; try exact I;
      destruct (blob_name article); try destruct (json_dumps article);
      try discriminate; try exact I;
      (split; [reflexivity|]); repeat constructor; discriminate.
Qed.
End SaveProperties.

(** ** Every outcome of [load_wikipedia_subset] *)

Lemma select_range_cases (rows : list pyval) (n : Z) :
  (select_range rows n = Ok (take (Z.to_nat n) rows)
   /\ (rows = [] \/ n <= Z.of_nat (length rows)))
  \/ (exists e, select_range rows n = Raise e /\ exn_class e = lit "IndexError"
                /\ rows <> [] /\ Z.of_nat (length rows) < n).
Proof.
  destruct rows as [|row rows].
  - left. split; [|auto]. unfold select_range. simpl. rewrite take_nil. reflexivity.
  - destruct (Z.le_gt_cases n (Z.of_nat (length (row :: rows)))) as [Hle | Hgt].
    + left. split; [|auto].
      destruct (Z.lt_ge_cases 0 n) as [Hpos | Hneg].
      * apply select_range_prefix; assumption.
      * unfold select_range, check_valid_indices_value.
        destruct (Z.eqb_spec (Z.of_nat (length (row :: rows))) 0) as [E | _];
          [simpl in E; lia|].
        destruct (Z.leb_spec 0 n) as [H0 | H0].
        -- assert (n = 0) as -> by lia.
           destruct (Z.leb_spec (Z.of_nat (length (row :: rows))) 0);
             [simpl in *; lia|].
           destruct (Z.ltb_spec (0 + 0 - 1 + Z.of_nat (length (row :: rows))) 0);
             [simpl in *; lia|].
           destruct (Z.leb_spec (Z.of_nat (length (row :: rows))) (0 + 0 - 1));
             [simpl in *; lia|].
           reflexivity.
        -- destruct n; try lia. reflexivity.
    + right. eexists. split; [apply select_range_out_of_range; [discriminate | lia]|].
      split; [reflexivity|]. split; [discriminate | lia].
Qed.

(** X8.  Whatever [load_wikipedia_subset] returns is the first rows of the
    dataset, in order, as many as were asked for (none for a negative
    size); it returns fewer only when the dataset is empty.  It raises in
    two cases only: the hub raised, or the dataset is not empty and has
    fewer rows than asked for, and then the exception is an
    [IndexError]. *)
Theorem load_wikipedia_subset_outcome {hub : DatasetSource} {Store : Type}
    (self : WikipediaDataExtractor) (sample_size_arg : option Z) (w : World Store) :
  let n := default (sample_size self) sample_size_arg in
  let source := load_dataset (dataset_name self) (subset self) (lit "train") in
  match fst (load_wikipedia_subset self sample_size_arg w) with
  | Ok articles =>
      exists rows,
        source = Ok rows /\ articles = take (Z.to_nat n) rows
        /\ (rows = [] \/ n <= Z.of_nat (length rows))
  | Raise e =>
      source = Raise e
      \/ exists rows,
           source = Ok rows /\ rows <> [] /\ Z.of_nat (length rows) < n
           /\ exn_class e = lit "IndexError"
  end.
Proof.
  cbv zeta. unfold load_wikipedia_subset, try_except, bind, lift, logger, ret, raise.
  cbn [fst snd].
  destruct (load_dataset _ _ _) as [rows | e]; [|left; reflexivity].
  destruct (select_range_cases rows (default (sample_size self) sample_size_arg))
    as [[Hsel Hsize] | (e & Hsel & Hclass & Hne & Hlt)]; rewrite Hsel; cbn [fst].
  - exists rows. auto.
  - right. exists rows. auto.
Qed.

(** X9.  A sample size of zero or less is not an error: when the hub
    returns, [load_wikipedia_subset] returns no row and logs that it
    loaded 0 articles. *)
Theorem load_wikipedia_subset_nothing_asked {hub : DatasetSource} {Store : Type}
    (self : WikipediaDataExtractor) (sample_size_arg : option Z)
    (rows : list pyval) (w : World Store) :
  load_dataset (dataset_name self) (subset self) (lit "train") = Ok rows ->
  default (sample_size self) sample_size_arg <= 0 ->
  fst (load_wikipedia_subset self sample_size_arg w) = Ok []
  /\ last (log (snd (load_wikipedia_subset self sample_size_arg w)))
     = Some (INFO, lit "Successfully loaded 0 articles").
Proof.
  intros Hload Hn.
  destruct (select_range_cases rows (default (sample_size self) sample_size_arg))
    as [[Hsel _] | (e & _ & _ & _ & Hlt)]; [|lia].
  assert (Z.to_nat (default (sample_size self) sample_size_arg) = O) as Hz by lia.
  rewrite Hz, take_0 in Hsel.
  unfold load_wikipedia_subset, try_except, bind, lift, logger, ret, raise.
  cbn [fst snd]. rewrite Hload, Hsel. cbn [fst snd log with_log].
  split; [reflexivity | apply last_snoc].
Qed.

Lemma load_wikipedia_subset_nothing_asked_witness :
  default (sample_size test_extractor) (Some 0) <= 0
  /\ fst (load_wikipedia_subset (hub := fixed_source sample_data) (Store := MemStore)
            test_extractor (Some 0) (fresh_world ∅)) = Ok [].
Proof.
  split; [cbn; lia|].
  apply (load_wikipedia_subset_nothing_asked (hub := fixed_source sample_data)
           test_extractor (Some 0) sample_data (fresh_world ∅) eq_refl).
  cbn. lia.
Defined.

(** X10.  Loading and metadata extraction are read-only towards storage:
    they make no storage call and leave the account, the environment and
    the clock as they were; they only append to the log. *)
Theorem load_and_extract_leave_storage_alone {hub : DatasetSource} {Store : Type}
    (self : WikipediaDataExtractor) (sample_size_arg : option Z) (article : pyval)
    (w : World Store) :
  let w1 := snd (load_wikipedia_subset self sample_size_arg w) in
  let w2 := snd (extract_metadata self article w) in
  (trace w1 = trace w /\ store w1 = store w /\ environ w1 = environ w
   /\ utcnow w1 = utcnow w /\ log w `prefix_of` log w1)
  /\ (trace w2 = trace w /\ store w2 = store w /\ environ w2 = environ w
      /\ utcnow w2 = utcnow w /\ log w `prefix_of` log w2).
Proof.
  cbv zeta. split.
  - unfold load_wikipedia_subset, try_except, bind, lift, logger, ret, raise.
    cbn [fst snd].
    destruct (load_dataset _ _ _) as [rows | e]; cbn [fst snd];
      [destruct (select_range _ _); cbn [fst snd]|];
      cbn [trace store environ utcnow log with_log]; repeat split;
      rewrite <- ?app_assoc; eexists; reflexivity.
  - unfold extract_metadata, try_except, bind, lift, logger, ret, raise, datetime_utcnow.
    destruct article; cbn [py_get py_contains py_getitem fst snd];
      try (cbn [trace store environ utcnow log with_log]; repeat split;
           eexists; reflexivity).
    destruct (dict_lookup entries (lit "categories"));
      cbn [bool_decide decide_rel fst snd]; repeat split;
      exists []; rewrite app_nil_r; reflexivity.
Qed.

(** ** More on [extract_metadata] *)

(** X11.  Extracting the metadata of a metadata record, at the same clock,
    gives the record back: the operation is idempotent. *)
Theorem extract_metadata_idempotent {Store : Type}
    (self : WikipediaDataExtractor) (entries : list (pystr * pyval)) (w : World Store) :
  match fst (extract_metadata self (PDict entries) w) with
  | Ok metadata => extract_metadata self metadata w = (Ok metadata, w)
  | Raise _ => False
  end.
Proof.
  unfold extract_metadata, try_except, bind, lift, ret, datetime_utcnow.
  cbn [py_get py_contains py_getitem].
  destruct (dict_lookup entries (lit "categories")) as [cats|]; reflexivity.
Qed.





(** ** Reading a timestamp back *)

Lemma fold_digits_lower (ds : pystr) (acc : Z) :
  0 <= acc -> acc * 10 ^ Z.of_nat (length ds) <= fold_left digit_step ds acc.
Proof.
  revert acc. induction ds as [|c ds IH]; intros acc Hacc.
  - simpl. lia.
  - cbn [fold_left length]. rewrite Nat2Z.inj_succ, Z.pow_succ_r by lia.
    assert (Hstep : acc * 10 <= digit_step acc c) by (unfold digit_step; lia).
    specialize (IH (digit_step acc c) ltac:(lia)).
    assert (0 <= 10 ^ Z.of_nat (length ds)) by (apply Z.pow_nonneg; lia).
    nia.
Qed.

Lemma int_of_digits_zeros (m : nat) (ds : pystr) :
  int_of_digits (replicate m 48%N ++ ds) = int_of_digits ds.
Proof.
  unfold int_of_digits. change (fun acc c => 10 * acc + Z.of_N (c - 48)) with digit_step.
  induction m as [|m IH]; [reflexivity | exact IH].
Qed.

Lemma zeros_are_digits (m : nat) : forallb is_digit (replicate m 48%N) = true.
Proof. induction m as [|m IH]; [reflexivity | exact IH]. Qed.

(** The decimal text of a natural number below [10 ^ width]. *)
Lemma str_of_int_field (width : nat) (n : N) :
  (0 < width)%nat -> Z.of_N n < 10 ^ Z.of_nat width ->
  (length (str_of_int (Z.of_N n)) <= width)%nat
  /\ forallb is_digit (str_of_int (Z.of_N n)) = true
  /\ int_of_digits (str_of_int (Z.of_N n)) = Z.of_N n.
Proof.
  intros Hw Hn.
  destruct (str_of_int_shape (Z.of_N n)) as [Hz | (neg & c & ds & E & Hc & H48 & Hds & Hv)].
  - rewrite Hz. repeat split; simpl; lia.
  - assert (Hdig : forallb is_digit (c :: ds) = true) by (simpl; rewrite Hc, Hds; reflexivity).
    assert (Hnonneg : 0 <= int_of_digits (c :: ds)).
    { unfold int_of_digits.
      change (fun acc c => 10 * acc + Z.of_N (c - 48)) with digit_step.
      pose proof (fold_digits_lower (c :: ds) 0 ltac:(lia)). lia. }
    destruct neg.
    + assert (Hzero : Z.of_N n = 0) by lia.
      exfalso. unfold is_digit in Hc. apply andb_prop in Hc as [H1 H2].
      apply N.leb_le in H1. apply N.eqb_neq in H48.
      unfold int_of_digits in Hv, Hnonneg.
      change (fun acc c => 10 * acc + Z.of_N (c - 48)) with digit_step in Hv, Hnonneg.
      cbn [fold_left] in Hv.
      pose proof (fold_digits_lower ds (digit_step 0 c) ltac:(unfold digit_step; lia)).
      assert (1 <= digit_step 0 c) by (unfold digit_step; lia).
      assert (0 < 10 ^ Z.of_nat (length ds)) by (apply Z.pow_pos_nonneg; lia).
      nia.
    + cbn [app] in E. rewrite E. split; [|split; [exact Hdig | symmetry; exact Hv]].
      unfold is_digit in Hc. apply andb_prop in Hc as [H1 H2].
      apply N.leb_le in H1. apply N.eqb_neq in H48.
      unfold int_of_digits in Hv.
      change (fun acc c => 10 * acc + Z.of_N (c - 48)) with digit_step in Hv.
      cbn [fold_left] in Hv.
      pose proof (fold_digits_lower ds (digit_step 0 c) ltac:(unfold digit_step; lia)) as Hlow.
      assert (Hone : 1 <= digit_step 0 c) by (unfold digit_step; lia).
      assert (Hpow : 10 ^ Z.of_nat (length ds) < 10 ^ Z.of_nat width).
      { assert (0 < 10 ^ Z.of_nat (length ds)) by (apply Z.pow_pos_nonneg; lia). nia. }
      apply Z.pow_lt_mono_r_iff in Hpow; [|lia|lia]. cbn [length]. lia.
Qed.

Lemma take_field_decimal (width : nat) (n : N) (rest : pystr) :
  (0 < width)%nat -> Z.of_N n < 10 ^ Z.of_nat width ->
  take_field width (decimal width n ++ rest) = Some (n, rest).
Proof.
  intros Hw Hn. destruct (str_of_int_field width n Hw Hn) as (Hlen & Hdig & Hval).
  unfold take_field, decimal, zfill.
  set (text := str_of_int (Z.of_N n)) in *.
  assert (Hwhole : length (replicate (width - length text) 48%N ++ text) = width)
    by (rewrite length_app, length_replicate; lia).
  rewrite take_app_length' by (symmetry; exact Hwhole).
  rewrite drop_app_length' by (symmetry; exact Hwhole).
  rewrite Hwhole, Nat.eqb_refl, forallb_app, Hdig, int_of_digits_zeros, Hval, N2Z.id.
  rewrite zeros_are_digits. reflexivity.
Qed.

Lemma take_field_not_digit (width : nat) (c : N) (s : pystr) :
  (0 < width)%nat -> is_digit c = false -> take_field width (c :: s) = None.
Proof.
  intros Hw Hc. destruct width as [|width]; [lia|].
  unfold take_field. cbn [take forallb]. rewrite Hc, andb_false_r. reflexivity.
Qed.

Lemma isoformat_parse (d : datetime) :
  in_range d = true -> parse_timestamp (isoformat d) = Some d.
Proof.
  unfold in_range. intros Hr.
  repeat (apply andb_prop in Hr as [Hr ?]).
  repeat match goal with
         | H : (_ <=? _)%N = true |- _ => apply N.leb_le in H
         | H : (_ <? _)%N = true |- _ => apply N.ltb_lt in H
         end.
  destruct d as [y mo dd h mi sec us]. cbn [year month day hour minute second microsecond] in *.
  unfold isoformat, parse_timestamp.
  cbn [year month day hour minute second microsecond].
  change (lit "-") with [45%N]. change (lit "T") with [84%N].
  change (lit ":") with [58%N]. change (lit ".") with [46%N].
  rewrite (take_field_decimal 4 y) by (simpl; lia). cbn [mbind option_bind expect N.eqb Pos.eqb app].
  rewrite (take_field_decimal 2 mo) by (simpl; lia). cbn [mbind option_bind expect N.eqb Pos.eqb app].
  rewrite (take_field_decimal 2 dd) by (simpl; lia). cbn [mbind option_bind expect N.eqb Pos.eqb app].
  rewrite (take_field_decimal 2 h) by (simpl; lia). cbn [mbind option_bind expect N.eqb Pos.eqb app].
  rewrite (take_field_decimal 2 mi) by (simpl; lia). cbn [mbind option_bind expect N.eqb Pos.eqb app].
  rewrite (take_field_decimal 2 sec) by (simpl; lia). cbn [mbind option_bind].
  destruct (N.eqb_spec us 0) as [-> | Hus]; [reflexivity|].
  cbn [app expect N.eqb Pos.eqb mbind option_bind].
  rewrite <- (app_nil_r (decimal 6 us)).
  rewrite (take_field_decimal 6 us []) by (simpl; lia). reflexivity.
Qed.

Lemma decimal_length (width : nat) (n : N) :
  (0 < width)%nat -> Z.of_N n < 10 ^ Z.of_nat width -> length (decimal width n) = width.
Proof.
  intros Hw Hn. destruct (str_of_int_field width n Hw Hn) as (Hlen & _).
  unfold decimal, zfill. rewrite length_app, length_replicate. lia.
Qed.

Lemma isoformat_length (d : datetime) :
  in_range d = true ->
  length (isoformat d) = if (microsecond d =? 0)%N then 19%nat else 26%nat.
Proof.
  unfold in_range. intros Hr.
  repeat (apply andb_prop in Hr as [Hr ?]).
  repeat match goal with
         | H : (_ <=? _)%N = true |- _ => apply N.leb_le in H
         | H : (_ <? _)%N = true |- _ => apply N.ltb_lt in H
         end.
  unfold isoformat. rewrite !length_app.
  rewrite (decimal_length 4 (year d)), (decimal_length 2 (month d)),
    (decimal_length 2 (day d)), (decimal_length 2 (hour d)),
    (decimal_length 2 (minute d)), (decimal_length 2 (second d)) by (simpl; lia).
  destruct (microsecond d =? 0)%N; [reflexivity|].
  rewrite length_app, (decimal_length 6 (microsecond d)) by (simpl; lia). reflexivity.
Qed.

(** X13.  When the clock shows a date that Python can hold, the
    [last_updated] of the metadata is a timestamp of 19 characters, or of
    26 with microseconds, and reading it back gives the clock of the
    call. *)
Theorem extract_metadata_timestamp {Store : Type}
    (self : WikipediaDataExtractor) (entries : list (pystr * pyval)) (w : World Store) :
  in_range (utcnow w) = true ->
  exists metadata stamp,
    fst (extract_metadata self (PDict entries) w) = Ok (PDict metadata)
    /\ dict_lookup metadata (lit "last_updated") = Some (PStr stamp)
    /\ parse_timestamp stamp = Some (utcnow w)
    /\ length stamp = if (microsecond (utcnow w) =? 0)%N then 19%nat else 26%nat.
Proof.
  intros Hr.
  pose proof (isoformat_parse (utcnow w) Hr) as Hparse.
  pose proof (isoformat_length (utcnow w) Hr) as Hlen.
  unfold extract_metadata, try_except, bind, lift, ret, datetime_utcnow.
  cbn [py_get py_contains py_getitem].
  destruct (dict_lookup entries (lit "categories")) as [cats|];
    eexists _, _; (split; [reflexivity|]); (split; [reflexivity|]); auto.
Qed.

Lemma extract_metadata_timestamp_witness :
  in_range epoch = true
  /\ exists metadata stamp,
       fst (extract_metadata (Store := MemStore) test_extractor sample_article_1
              (fresh_world ∅)) = Ok (PDict metadata)
       /\ dict_lookup metadata (lit "last_updated") = Some (PStr stamp)
       /\ parse_timestamp stamp = Some epoch
       /\ length stamp = 26%nat.
Proof.
  split; [reflexivity|].
  exact (extract_metadata_timestamp test_extractor sample_entries_1 (fresh_world ∅) eq_refl).
Defined.

(** ** When blob names do not collide *)

Lemma split_at_first (a : N) (x1 x2 y1 y2 : pystr) :
  (a ∉ x1) -> (a ∉ x2) -> x1 ++ a :: y1 = x2 ++ a :: y2 -> x1 = x2 /\ y1 = y2.
Proof.
  revert x2. induction x1 as [|c x1 IH]; intros [|d x2] H1 H2 Heq; simpl in Heq.
  - injection Heq as <-. auto.
  - injection Heq as -> _. exfalso. apply H2. left.
  - injection Heq as -> _. exfalso. apply H1. left.
  - injection Heq as -> Heq.
    apply not_elem_of_cons in H1 as [_ H1]. apply not_elem_of_cons in H2 as [_ H2].
    destruct (IH x2 H1 H2 Heq) as [-> ->]. auto.
Qed.

Lemma spaces_to_underscores_inj (t1 t2 : pystr) :
  (95%N ∉ t1) -> (95%N ∉ t2) ->
  spaces_to_underscores t1 = spaces_to_underscores t2 -> t1 = t2.
Proof.
  revert t2. induction t1 as [|c t1 IH]; intros [|d t2] H1 H2 Heq;
    try discriminate; [reflexivity|].
  apply not_elem_of_cons in H1 as [Hc H1]. apply not_elem_of_cons in H2 as [Hd H2].
  unfold spaces_to_underscores in Heq. cbn [map] in Heq. injection Heq as Hcd Heq.
  f_equal; [|exact (IH t2 H1 H2 Heq)].
  destruct (N.eqb_spec c 32) as [-> | Hc32], (N.eqb_spec d 32) as [-> | Hd32];
    congruence.
Qed.

(** X14.  Blob names tell articles apart when no [id] holds a hyphen and no
    [title] holds an underscore: two articles with such string fields and
    the same blob name have the same [id] and the same [title]. *)
Theorem blob_name_injective {builtins : Builtins}
    (entries1 entries2 : list (pystr * pyval)) (id1 id2 title1 title2 : pystr) :
  dict_lookup entries1 (lit "id") = Some (PStr id1) ->
  dict_lookup entries2 (lit "id") = Some (PStr id2) ->
  dict_lookup entries1 (lit "title") = Some (PStr title1) ->
  dict_lookup entries2 (lit "title") = Some (PStr title2) ->
  (45%N ∉ id1) -> (45%N ∉ id2) -> (95%N ∉ title1) -> (95%N ∉ title2) ->
  blob_name (PDict entries1) = blob_name (PDict entries2) ->
  id1 = id2 /\ title1 = title2.
Proof.
  intros Hi1 Hi2 Ht1 Ht2 Hh1 Hh2 Hu1 Hu2 Heq.
  rewrite (blob_name_of_title entries1 title1), (blob_name_of_title entries2 title2) in Heq
    by (rewrite ?Ht1, ?Ht2; reflexivity).
  rewrite Hi1, Hi2 in Heq. cbn [default format_value] in Heq.
  injection Heq as Heq. change (lit "-") with [45%N] in Heq. cbn [app] in Heq.
  destruct (split_at_first 45 id1 id2 _ _ Hh1 Hh2 Heq) as [-> Htail].
  split; [reflexivity|].
  apply app_inv_tail in Htail. exact (spaces_to_underscores_inj _ _ Hu1 Hu2 Htail).
Qed.

Lemma blob_name_injective_witness :
  (45%N ∉ lit "12345") /\ (95%N ∉ lit "Sample Article 1")
  /\ (lit "12345" = lit "12345" /\ lit "Sample Article 1" = lit "Sample Article 1").
Proof.
  assert (H45 : 45%N ∉ lit "12345") by (apply (bool_decide_unpack _); vm_compute; exact I).
  assert (H95 : 95%N ∉ lit "Sample Article 1") by (apply (bool_decide_unpack _); vm_compute; exact I).
  split; [exact H45|]. split; [exact H95|].
  exact (blob_name_injective (builtins := ascii_builtins)
           sample_entries_1 sample_entries_1 _ _ _ _
           eq_refl eq_refl eq_refl eq_refl H45 H45 H95 H95 eq_refl).
Defined.

(** ** The constructor *)

(** X15.  The constructor does not guard the sample size: when [int]
    rejects the text of [WIKIPEDIA_SAMPLE_SIZE], its exception leaves the
    constructor as it is, nothing is logged and no extractor is built. *)
Theorem init_propagates_int_error {builtins : Builtins} {Store : Type}
    (w : World Store) (e : exn) :
  py_int (default (lit "1000") (environ w !! lit "WIKIPEDIA_SAMPLE_SIZE")) = Raise e ->
  __init__ w = (Raise e, w).
Proof.
  intros Hint. unfold __init__, bind, environ_get_default, lift, ret. rewrite Hint.
  reflexivity.
Qed.

Lemma init_propagates_int_error_witness :
  let w := fresh_world {[ lit "WIKIPEDIA_SAMPLE_SIZE" := lit "ten" ]} in
  py_int (default (lit "1000") (environ w !! lit "WIKIPEDIA_SAMPLE_SIZE"))
  = Raise (Exn (lit "ValueError") (lit "invalid literal for int() with base 10"))
  /\ fst (__init__ w)
     = Raise (Exn (lit "ValueError") (lit "invalid literal for int() with base 10")).
Proof.
  cbv zeta.
  assert (Hint : py_int (default (lit "1000")
                           (environ (fresh_world
                                       {[ lit "WIKIPEDIA_SAMPLE_SIZE" := lit "ten" ]})
                              !! lit "WIKIPEDIA_SAMPLE_SIZE"))
                 = Raise (Exn (lit "ValueError")
                              (lit "invalid literal for int() with base 10")))
    by reflexivity.
  split; [exact Hint|].
  rewrite (init_propagates_int_error _ _ Hint). reflexivity.
Defined.

(** ** The payload as a text *)









(** X17.  Two different articles never have the same payload: among the
    values that [json] maps to themselves, [json.dumps] is injective. *)
Theorem json_dumps_injective (article1 article2 : pyval) :
  json_native article1 = true -> json_native article2 = true ->
  json_dumps article1 = json_dumps article2 ->
  article1 = article2.
Proof.
  intros Hn1 Hn2 Heq.
  destruct (json_encode_native article1 Hn1) as [text Htext].
  pose proof (json_loads_dumps article1 text Hn1 Htext) as H1.
  unfold json_dumps in Heq. rewrite Htext in Heq. symmetry in Heq.
  pose proof (json_loads_dumps article2 text Hn2 Heq) as H2.
  congruence.
Qed.

Lemma json_dumps_injective_witness :
  json_native sample_article_1 = true /\ sample_article_1 = sample_article_1.
Proof.
  split; [reflexivity|].
  exact (json_dumps_injective sample_article_1 sample_article_1 eq_refl eq_refl eq_refl).
Defined.

(** ** Saving into the account kept in memory *)

Section MemoryAccount.
Context {builtins : Builtins}.
Implicit Types (self : WikipediaDataExtractor) (article : pyval)
               (container_name : option pystr) (w : World MemStore).

Lemma save_to_memory_account self article container_name w (conn : pystr) :
  environ w !! lit "AZURE_STORAGE_CONNECTION_STRING" = Some conn ->
  conn <> [] ->
  fst (save_to_blob_storage self article container_name w) = Ok (saveable article)
  /\ store (snd (save_to_blob_storage self article container_name w))
     = account_after (container_at_call container_name w) article (store w)
  /\ environ (snd (save_to_blob_storage self article container_name w)) = environ w.
Proof.
  intros Hconn Hne.
  rewrite (save_to_blob_storage_connected self article container_name w conn Hconn Hne).
  set (c := container_at_call container_name w).
  unfold save_body, save_handler, account_after, saveable.
  cbv beta iota zeta delta [try_except bind sdk lift logger ret with_log
                            from_connection_string get_container_client container_exists
                            create_container get_blob_client upload_blob mem_service
                            mem_create_container mem_upload_blob].
  cbn [store environ utcnow log trace fst snd is_ok].
  destruct (store w !! c) as [blobs|] eqn:Hc.
  - cbn [bool_decide decide_rel is_Some_dec fst snd store default].
    destruct (blob_name article) as [name|]; cbn [fst snd store is_ok andb].
    + destruct (json_dumps article) as [data|]; cbn [fst snd store is_ok andb].
      * rewrite Hc. cbn [negb andb fst snd store]. auto.
      * rewrite insert_id by exact Hc. auto.
    + rewrite insert_id by exact Hc. auto.
  - cbn [bool_decide decide_rel is_Some_dec fst snd store default].
    rewrite Hc. cbn [fst snd store log environ utcnow trace].
    destruct (blob_name article) as [name|]; cbn [fst snd store is_ok andb]; [|auto].
    destruct (json_dumps article) as [data|]; cbn [fst snd store is_ok andb]; [|auto].
    rewrite lookup_insert_eq. cbn [negb andb fst snd store].
    rewrite insert_insert_eq. auto.
Qed.

Lemma account_after_lookup (container : pystr) article (s : MemStore) (c' : pystr) :
  c' <> container -> account_after container article s !! c' = s !! c'.
Proof.
  intros Hne. unfold account_after.
  destruct (blob_name article); [destruct (json_dumps article)|];
    apply lookup_insert_ne; congruence.
Qed.

(** X18.  On the account kept in memory, a save that returns [True] has
    written the payload under the blob name in the container of the call,
    and has changed nothing else: the other blobs of the container and the
    other containers are as they were. *)
Theorem save_to_blob_storage_writes_one_blob self article container_name w
    (conn name data : pystr) :
  environ w !! lit "AZURE_STORAGE_CONNECTION_STRING" = Some conn ->
  conn <> [] ->
  blob_name article = Ok name ->
  json_dumps article = Ok data ->
  let container := container_at_call container_name w in
  let run := save_to_blob_storage self article container_name w in
  fst run = Ok true
  /\ store (snd run) !! container
     = Some (<[name := data]> (default ∅ (store w !! container)))
  /\ (forall c', c' <> container -> store (snd run) !! c' = store w !! c').
Proof.
  intros Hconn Hne Hname Hdata. cbv zeta.
  destruct (save_to_memory_account self article container_name w conn Hconn Hne)
    as (Hr & Hstore & _).
  rewrite Hr, Hstore. unfold saveable. rewrite Hname, Hdata.
  split; [reflexivity|]. split; [|intros c' Hc'; apply account_after_lookup; exact Hc'].
  unfold account_after. rewrite Hname, Hdata. apply lookup_insert_eq.
Qed.

(** X19.  On the account kept in memory, the save of an article whose
    blob name or payload cannot be computed returns [False] and still
    leaves its container behind: created empty if it was missing,
    untouched otherwise; the other containers are as they were. *)
Theorem save_to_blob_storage_failure_leaves_container self article container_name w
    (conn : pystr) :
  environ w !! lit "AZURE_STORAGE_CONNECTION_STRING" = Some conn ->
  conn <> [] ->
  saveable article = false ->
  let container := container_at_call container_name w in
  let run := save_to_blob_storage self article container_name w in
  fst run = Ok false
  /\ store (snd run) !! container = Some (default ∅ (store w !! container))
  /\ (forall c', c' <> container -> store (snd run) !! c' = store w !! c').
Proof.
  intros Hconn Hne Hsave. cbv zeta.
  destruct (save_to_memory_account self article container_name w conn Hconn Hne)
    as (Hr & Hstore & _).
  rewrite Hr, Hstore, Hsave.
  split; [reflexivity|]. split; [|intros c' Hc'; apply account_after_lookup; exact Hc'].
  unfold account_after. unfold saveable in Hsave.
  destruct (blob_name article); [destruct (json_dumps article); [discriminate|]|];
    apply lookup_insert_eq.
Qed.

(** X20.  On the account kept in memory, saving the same article a second
    time changes nothing: the result is the same and the account is the
    one the first save left. *)
Theorem save_to_blob_storage_twice self article container_name w (conn : pystr) :
  environ w !! lit "AZURE_STORAGE_CONNECTION_STRING" = Some conn ->
  conn <> [] ->
  let run1 := save_to_blob_storage self article container_name w in
  let run2 := save_to_blob_storage self article container_name (snd run1) in
  fst run2 = fst run1 /\ store (snd run2) = store (snd run1).
Proof.
  intros Hconn Hne. cbv zeta.
  destruct (save_to_memory_account self article container_name w conn Hconn Hne)
    as (Hr1 & Hstore1 & Henv1).
  assert (Hconn1 : environ (snd (save_to_blob_storage self article container_name w))
                     !! lit "AZURE_STORAGE_CONNECTION_STRING" = Some conn)
    by (rewrite Henv1; exact Hconn).
  destruct (save_to_memory_account self article container_name _ conn Hconn1 Hne)
    as (Hr2 & Hstore2 & _).
  rewrite Hr2, Hr1. split; [reflexivity|]. rewrite Hstore2.
  assert (container_at_call container_name
            (snd (save_to_blob_storage self article container_name w))
          = container_at_call container_name w) as ->
    by (unfold container_at_call; rewrite Henv1; reflexivity).
  rewrite Hstore1. set (c := container_at_call container_name w).
  unfold account_after.
  destruct (blob_name article) as [name|]; [destruct (json_dumps article) as [data|]|];
    rewrite lookup_insert_eq; cbn [default]; unfold id;
    rewrite ?insert_insert_eq; reflexivity.
Qed.

End MemoryAccount.

Lemma save_to_blob_storage_writes_one_blob_witness :
  blob_name sample_article_1 = Ok (lit "12345-Sample_Article_1.json")
  /\ fst (save_to_blob_storage test_extractor sample_article_1 None
            (fresh_world configured_env)) = Ok true.
Proof.
  split; [reflexivity|].
  destruct (json_encode_native sample_article_1 eq_refl) as [data Hdata].
  refine (proj1 (save_to_blob_storage_writes_one_blob test_extractor sample_article_1 None
                   (fresh_world configured_env) (lit "UseDevelopmentStorage=true")
                   (lit "12345-Sample_Article_1.json") data eq_refl _ eq_refl Hdata)).
  discriminate.
Defined.

Lemma save_to_blob_storage_failure_leaves_container_witness :
  saveable (PList []) = false
  /\ store (snd (save_to_blob_storage test_extractor (PList []) None
                   (fresh_world configured_env))) !! lit "wikipedia-raw"
     = Some ∅.
Proof.
  split; [reflexivity|].
  refine (proj1 (proj2 (save_to_blob_storage_failure_leaves_container
                          test_extractor (PList []) None (fresh_world configured_env)
                          (lit "UseDevelopmentStorage=true") eq_refl _ eq_refl))).
  discriminate.
Defined.

Lemma save_to_blob_storage_twice_witness :
  environ (fresh_world configured_env) !! lit "AZURE_STORAGE_CONNECTION_STRING"
  = Some (lit "UseDevelopmentStorage=true")
  /\ fst (save_to_blob_storage test_extractor sample_article_1 None
            (snd (save_to_blob_storage test_extractor sample_article_1 None
                    (fresh_world configured_env))))
     = fst (save_to_blob_storage test_extractor sample_article_1 None
              (fresh_world configured_env)).
Proof.
  split; [reflexivity|].
  refine (proj1 (save_to_blob_storage_twice test_extractor sample_article_1 None
                   (fresh_world configured_env) (lit "UseDevelopmentStorage=true")
                   eq_refl _)).
  discriminate.
Defined.
